(** * Portfolio tracker: valuation and sector-allocation engine

    A shallow embedding of the service layer of the portfolio tracker
    ([gui-component.py], class [PortfolioService] and the handlers of
    [PortfolioOverviewTab] that mutate the holdings table) and of the
    command-line report ([portfolio_tracker_cli.py]).

    Conventions of the embedding:
    - Python numbers are rationals ([Q]); the only non-finite results the
      code can produce (a division by a zero total) are kept apart in
      [xnum].  Rounding error of binary floating point is not modelled.
    - Python strings are [string]s of bytes; [str.lower] is the ASCII
      case map.
    - A raised exception is the [Raised] result of [result]; every
      [try ... except Exception] of the source is a [try_except].
    - The market-data provider ([yfinance]) is a function from symbols to
      what a ticker object answers.
    - A cell of a text column holds a text or nothing ([None], [NaN]);
      this is modelled for the column ['Sector'], whose empty cells
      [groupby] treats in a way of its own.
    - The file system is an input of the handlers that write a file: each
      write is told whether it succeeds, fails when the file is opened,
      or fails after the file was opened and truncated. *)

From Stdlib Require Import QArith Qround Lqa.
From stdpp Require Import base option list strings sorting gmap.

Open Scope string_scope.

(** ** Python strings *)

Module PyStr.

(** [c.lower()] on one ASCII character. *)
Definition lower_ascii (c : Ascii.ascii) : Ascii.ascii :=
  let n := Ascii.nat_of_ascii c in
  if (65 <=? n)%nat && (n <=? 90)%nat then Ascii.ascii_of_nat (n + 32)
  else c.

(** [s.lower()]. *)
Fixpoint lower (s : string) : string :=
  match s with
  | EmptyString => EmptyString
  | String c s' => String (lower_ascii c) (lower s')
  end.

(** [s.startswith(t)]. *)
Fixpoint startswith (s t : string) {struct t} : bool :=
  match t, s with
  | EmptyString, _ => true
  | String a t', String b s' => Ascii.eqb a b && startswith s' t'
  | String _ _, EmptyString => false
  end.

(** [t in s]: [t] occurs in [s] as a contiguous substring. *)
Fixpoint contains (t s : string) : bool :=
  startswith s t ||
  match s with
  | EmptyString => false
  | String _ s' => contains t s'
  end.

(** [s.endswith(t)]: some suffix of [s] is [t]. *)
Fixpoint endswith (s t : string) : bool :=
  String.eqb s t ||
  match s with
  | EmptyString => false
  | String _ s' => endswith s' t
  end.

(** [any(term in name for term in terms)]. *)
Definition any_in (terms : list string) (name : string) : bool :=
  existsb (fun term => contains term name) terms.

(** The characters of a string. *)
Fixpoint chars (s : string) : list Ascii.ascii :=
  match s with
  | EmptyString => []
  | String c s' => c :: chars s'
  end.

End PyStr.

Open Scope Q_scope.

(** ** Exceptions *)

Inductive result (A : Type) : Type :=
  | Ok (a : A)
  | Raised.
Arguments Ok {A} a.
Arguments Raised {A}.

Definition rbind {A B : Type} (m : result A) (k : A -> result B) : result B :=
  match m with
  | Ok a => k a
  | Raised => Raised
  end.

Declare Scope result_scope.
Delimit Scope result_scope with result.
Notation "'let!' x ':=' m 'in' k" := (rbind m (fun x => k))
  (at level 10, x name, m at level 100, k at level 200) : result_scope.
Open Scope result_scope.

(** [try: body / except Exception: return handler]. *)
Definition try_except {A : Type} (body : result A) (handler : A) : A :=
  match body with
  | Ok a => a
  | Raised => handler
  end.

(** ** The market-data provider *)

(** One key of the [ticker.info] dictionary: absent, present with the value
    [None], or present with a value. *)
Inductive entry (A : Type) : Type :=
  | Absent
  | Null
  | Present (a : A).
Arguments Absent {A}.
Arguments Null {A}.
Arguments Present {A} a.

(** [d.get(key)]: the value, [None] when the key is absent. *)
Definition dict_get {A : Type} (e : entry A) : option A :=
  match e with
  | Present a => Some a
  | Null | Absent => None
  end.

(** [d.get(key, default)]: the default only replaces an absent key. *)
Definition dict_get_default {A : Type} (e : entry A) (d : A) : option A :=
  match e with
  | Present a => Some a
  | Null => None
  | Absent => Some d
  end.

(** [v.lower()] where [v] may be [None]: [None] has no method [lower]. *)
Definition py_lower (v : option string) : result string :=
  match v with
  | Some s => Ok (PyStr.lower s)
  | None => Raised
  end.

(** The keys of [ticker.info] the program reads. *)
Record Info : Type := {
  quoteType : entry string;
  shortName : entry string;
  sector : entry string;
  currentPrice : entry Q;
  regularMarketPrice : entry Q;
  previousClose : entry Q
}.

(** What [yf.Ticker(symbol)] answers: [ticker_info] is the [.info]
    property and [ticker_history] the ['Close'] column of
    [.history(period='1d')]; either may raise. *)
Record Ticker : Type := {
  ticker_info : result Info;
  ticker_history : result (list Q)
}.

Definition Provider : Type := string -> Ticker.

(** Truth value of a price: [None], [0] and [0.0] are false. *)
Definition truthy (price : option Q) : bool :=
  match price with
  | Some p => negb (Qeq_bool p 0)
  | None => false
  end.

(** ** PortfolioService: classification and price lookup *)

Section Service.

Variable yf : Provider.

(** [info.get('quoteType', '').lower()] *)
Definition quote_type_lower (info : Info) : result string :=
  py_lower (dict_get_default (quoteType info) "").

Definition get_security_type (symbol : string) : string :=
  try_except
    (let! info := ticker_info (yf symbol) in
     let! qt := quote_type_lower info in
     if PyStr.contains "etf" qt || PyStr.endswith symbol "F" then Ok "ETF"
     else
       let! qt := quote_type_lower info in
       if PyStr.contains "mutualFund" qt || PyStr.endswith symbol "X"
       then Ok "Mutual Fund"
       else
         let! qt := quote_type_lower info in
         if PyStr.contains "index" qt then Ok "Index"
         else Ok "Stock")
    "Stock".

Definition get_etf_sector_classification (symbol : string) : string :=
  try_except
    (let! info := ticker_info (yf symbol) in
     let! name := py_lower (dict_get_default (shortName info) "") in
     if PyStr.any_in ["bond"; "treasury"; "income"] name then Ok "Bond ETF"
     else if PyStr.any_in ["nasdaq"; "tech"; "technology"] name
          then Ok "Technology ETF"
     else if PyStr.any_in ["s&p"; "sp500"; "500"; "total market"] name
          then Ok "Index ETF"
     else if PyStr.any_in ["health"; "healthcare"] name
          then Ok "Healthcare ETF"
     else if PyStr.any_in ["energy"; "oil"; "gas"] name then Ok "Energy ETF"
     else if PyStr.any_in ["financial"; "bank"] name then Ok "Financial ETF"
     else if PyStr.any_in ["dividend"; "yield"] name then Ok "Dividend ETF"
     else if PyStr.any_in ["growth"] name then Ok "Growth ETF"
     else if PyStr.any_in ["value"] name then Ok "Value ETF"
     else if PyStr.any_in ["bitcoin"; "crypto"] name then Ok "Crypto ETF"
     else Ok "ETF")
    "ETF".

(** The fallback chain of [get_price], one definition per stage so that
    "falling through" has a name: each stage either returns or hands
    over to the next one. *)
Definition price_from_previous_close (t : Ticker) : result (option Q) :=
  let! info := ticker_info t in
  let price := dict_get (previousClose info) in
  if truthy price then Ok price else Ok None.

Definition price_from_history (t : Ticker) : result (option Q) :=
  let! hist := ticker_history t in
  match hist with
  | [] => price_from_previous_close t
  | _ :: _ => Ok (last hist)
  end.

Definition price_from_regular_market (t : Ticker) : result (option Q) :=
  let! info := ticker_info t in
  let price := dict_get (regularMarketPrice info) in
  if truthy price then Ok price else price_from_history t.

Definition price_from_current (t : Ticker) : result (option Q) :=
  let! info := ticker_info t in
  let price := dict_get (currentPrice info) in
  if truthy price then Ok price else price_from_regular_market t.

Definition get_price (symbol : string) : option Q :=
  try_except (price_from_current (yf symbol)) None.

End Service.

(** ** Holdings tables *)

(** One row of the holdings table with the seven columns of the store.
    The cell ['Sector'] may be empty: [info.get('sector', 'Unknown')]
    stores [None] when the provider reports a sector of [None], and a file
    may lack the value. *)
Record Row : Type := {
  Symbol : string;
  Company : string;
  Sector : option string;
  Shares : Q;
  Current_Price : Q;
  Total_Value : Q;
  Last_Updated : option string
}.

(** One row of a table that has no valuation columns yet, as
    [create_portfolio] builds it. *)
Record Position : Type := {
  pos_Symbol : string;
  pos_Company : string;
  pos_Sector : string;
  pos_Shares : Q
}.

(** A [pandas.DataFrame] of holdings.  Its index is the default one
    (labels 0, 1, ... in row order), as [pd.concat(..., ignore_index=True)],
    [reset_index(drop=True)] and the readers leave it, so [df.at[index, _]]
    addresses the row at that position.  The columns ['Current Price'],
    ['Total Value'] and ['Last Updated'] are all present or all absent. *)
Inductive DataFrame : Type :=
  | Holdings (rows : list Row)
  | Positions (rows : list Position).

(** [df.empty] *)
Definition df_empty (df : DataFrame) : bool :=
  match df with
  | Holdings [] | Positions [] => true
  | _ => false
  end.

(** ['Total Value' in df.columns] *)
Definition has_total_value (df : DataFrame) : bool :=
  match df with
  | Holdings _ => true
  | Positions _ => false
  end.

(** The preamble of [update_portfolio_prices]:
    [df['Current Price'] = 0.0], [df['Total Value'] = 0.0] and
    [df['Last Updated'] = None] for the columns that are missing. *)
Definition add_missing_columns (df : DataFrame) : list Row :=
  match df with
  | Holdings rows => rows
  | Positions ps =>
      map (fun p => {| Symbol := pos_Symbol p;
                       Company := pos_Company p;
                       Sector := Some (pos_Sector p);
                       Shares := pos_Shares p;
                       Current_Price := 0;
                       Total_Value := 0;
                       Last_Updated := None |}) ps
  end.

(** The three [df.at[index, _] = ...] assignments of a successful fetch;
    [row] is the snapshot [iterrows] yielded, whose ['Shares'] are read. *)
Definition set_price (row : Row) (price : Q) (now : string) : Row :=
  {| Symbol := Symbol row;
     Company := Company row;
     Sector := Sector row;
     Shares := Shares row;
     Current_Price := price;
     Total_Value := price * Shares row;
     Last_Updated := Some now |}.

(** The invariant of the data model on one row. *)
Definition valued (row : Row) : Prop :=
  Total_Value row == Current_Price row * Shares row.

Section Refresh.

Variable yf : Provider.

(** [clock index] is what
    [datetime.now().strftime('%Y-%m-%d %H:%M:%S')] answers while the
    loop is at row [index]. *)
Variable clock : nat -> string.

(** The body of the loop [for index, row in df.iterrows()]. *)
Definition refresh_row (index : nat) (row : Row) : Row :=
  let price := get_price yf (Symbol row) in
  if truthy price then
    match price with
    | Some p => set_price row p (clock index)
    | None => row
    end
  else row.

(** [PortfolioService.update_portfolio_prices] *)
Definition update_portfolio_prices (df : DataFrame) : DataFrame :=
  if df_empty df then df
  else Holdings (imap refresh_row (add_missing_columns df)).

(** [update_portfolio_prices] of the command-line report: the same loop
    without the test for an empty table. *)
Definition cli_update_portfolio_prices (df : DataFrame) : DataFrame :=
  Holdings (imap refresh_row (add_missing_columns df)).

End Refresh.

(** ** Sector allocation *)

(** A float that may be non-finite: what a division by a zero total
    leaves in a column. *)
Inductive xnum : Type :=
  | Fin (q : Q)
  | PosInf
  | NegInf
  | NaN.

(** [a / b] on floats: pandas divides without raising. *)
Definition xdiv (a b : Q) : xnum :=
  if Qeq_bool b 0 then
    match Qcompare a 0 with
    | Eq => NaN
    | Gt => PosInf
    | Lt => NegInf
    end
  else Fin (a / b).

(** Round half to even, to an integer. *)
Definition rint (x : Q) : Z :=
  let f := Qfloor x in
  match Qcompare (x - inject_Z f) (1 # 2) with
  | Lt => f
  | Gt => (f + 1)%Z
  | Eq => if Z.even f then f else (f + 1)%Z
  end.

(** [x.round(2)] *)
Definition round2 (x : Q) : Q := inject_Z (rint (x * 100)) / 100.

(** [(x * 100).round(2)] on a possibly non-finite [x]. *)
Definition xpercent (x : xnum) : xnum :=
  match x with
  | Fin q => Fin (round2 (q * 100))
  | PosInf => PosInf
  | NegInf => NegInf
  | NaN => NaN
  end.

(** One row of the allocation summary. *)
Record SectorRow : Type := {
  sum_Sector : string;
  sum_Total_Value : Q;
  Percentage : xnum
}.

(** [df.groupby('Sector').agg({'Total Value': 'sum'}).reset_index()]:
    one entry per distinct sector, in ascending order of the sector name
    ([groupby] sorts its keys), each with the sum of its rows in row
    order.  With the default [dropna=True] a row whose sector cell is
    empty belongs to no group. *)
Fixpoint group_add (key : string) (v : Q) (groups : list (string * Q))
  : list (string * Q) :=
  match groups with
  | [] => [(key, v)]
  | (k, s) :: rest =>
      match (key ?= k)%string with
      | Eq => (k, s + v) :: rest
      | Lt => (key, v) :: (k, s) :: rest
      | Gt => (k, s) :: group_add key v rest
      end
  end.

Definition group_row (groups : list (string * Q)) (row : Row)
  : list (string * Q) :=
  match Sector row with
  | Some key => group_add key (Total_Value row) groups
  | None => groups
  end.

Definition groupby_sum (rows : list Row) : list (string * Q) :=
  fold_left group_row rows [].

(** [df['Total Value'].sum()]: all rows, with or without a sector. *)
Definition total_value_sum (rows : list Row) : Q :=
  fold_left (fun acc row => acc + Total_Value row) rows 0.

(** [sector_summary.sort_values('Percentage', ascending=False)] is
    library code: the program is modelled over the function it applies to
    the summary. *)
Definition SortValues : Type := list SectorRow -> list SectorRow.

(** What is used of that call: it returns the rows it was given, in some
    order. *)
Definition rearranges (sort_values : SortValues) : Prop :=
  forall l, sort_values l ≡ₚ l.

(** A new column ['Percentage'] computed from the column ['Total Value']. *)
Definition with_percentage (pct : Q -> xnum)
    (sector_summary : list (string * Q)) : list SectorRow :=
  map (fun '(s, v) =>
         {| sum_Sector := s; sum_Total_Value := v; Percentage := pct v |})
      sector_summary.

Section Allocation.

Variable sort_values : SortValues.

(** [PortfolioService.calculate_sector_allocation] *)
Definition calculate_sector_allocation (df : DataFrame) : list SectorRow :=
  if df_empty df || negb (has_total_value df) then []
  else
    match df with
    | Positions _ => []
    | Holdings rows =>
        let sector_summary := groupby_sum rows in
        let total_portfolio := total_value_sum rows in
        let sector_summary :=
          if negb (Qle_bool total_portfolio 0) then
            with_percentage
              (fun v => Fin (round2 (v / total_portfolio * 100)))
              sector_summary
          else
            with_percentage (fun _ => Fin 0) sector_summary in
        sort_values sector_summary
    end.

(** [calculate_sector_allocation] of the command-line report: no test
    for an empty table, no test of the total.  Reading a column the
    table does not have raises [KeyError]. *)
Definition cli_calculate_sector_allocation (df : DataFrame)
  : result (list SectorRow) :=
  match df with
  | Positions _ => Raised
  | Holdings rows =>
      let sector_summary := groupby_sum rows in
      let total_portfolio := total_value_sum rows in
      let sector_summary :=
        with_percentage (fun v => xpercent (xdiv v total_portfolio))
                        sector_summary in
      Ok (sort_values sector_summary)
  end.

End Allocation.

(** ** The overview tab: table in memory, written through to the data
    file *)

(** What the attribute [self.portfolio_df] refers to: [None], a table
    with the seven columns of the store, the frame without rows and
    without columns that [pd.read_json] makes of the text "[]", or the
    tab itself. *)
Inductive Attr : Type :=
  | AttrNone
  | AttrFrame (rows : list Row)
  | AttrNoColumns
  | AttrSelf.

(** The content of a file a handler writes: there is no file, the file
    holds the text of a table, or it holds a text cut short by a write
    that failed after the file was opened. *)
Inductive File : Type :=
  | NoFile
  | Saved (rows : list Row)
  | Cut.

(** What the file system does with [open(path, 'w')] followed by the
    write: both succeed, [open] raises and the file stays as it was, or
    [open] truncates the file and the write (or the closing flush)
    raises. *)
Inductive Disk : Type :=
  | DiskOk
  | OpenFails
  | WriteFails.

(** [PortfolioOverviewTab] with the file of its [PortfolioService]:
    [data_file] is the content of [portfolio_data.json] and [table_rows]
    the number of rows of the table widget, [self.portfolio_table]. *)
Record Tab : Type := {
  portfolio_df : Attr;
  data_file : File;
  table_rows : nat
}.

(** How a handler ends. *)
Inductive outcome : Type :=
  | Returned
  | Raises.

(** [df.to_json(orient='records')]: only a [DataFrame] has the method;
    a frame without rows gives the text "[]", with or without columns. *)
Definition to_json (df : Attr) : result (list Row) :=
  match df with
  | AttrFrame rows => Ok rows
  | AttrNoColumns => Ok []
  | AttrNone | AttrSelf => Raised
  end.

(** [PortfolioService.save_portfolio]: the new content of the file and
    the value returned.  [to_json] runs before the file is opened, so a
    failure there leaves the file as it was; every exception is caught
    and turned into [False]. *)
Definition save_portfolio (disk : Disk) (df : Attr) (file : File)
  : File * bool :=
  match to_json df with
  | Raised => (file, false)
  | Ok json_data =>
      match disk with
      | DiskOk => (Saved json_data, true)
      | OpenFails => (file, false)
      | WriteFails => (Cut, false)
      end
  end.

(** [PortfolioTableWidget.update_from_dataframe]: [setRowCount(0)]
    removes the rows shown, then [df.empty] is read, which only a
    [DataFrame] has, then one row is inserted per row of the table.  The
    result is the number of rows of the widget and how the call ends. *)
Definition update_from_dataframe (df : Attr) : nat * outcome :=
  match df with
  | AttrFrame rows => (length rows, Returned)
  | AttrNoColumns => (0%nat, Returned)
  | AttrNone | AttrSelf => (0%nat, Raises)
  end.

(** [PortfolioOverviewTab.update_display]: nothing is drawn while
    [self.portfolio_df] is [None]. *)
Definition update_display (tab : Tab) : Tab * outcome :=
  match portfolio_df tab with
  | AttrNone => (tab, Returned)
  | df =>
      ({| portfolio_df := portfolio_df tab;
          data_file := data_file tab;
          table_rows := fst (update_from_dataframe df) |},
       snd (update_from_dataframe df))
  end.

(** [self.stock_data] of the search dialog, for a security found with a
    name and a price; the sector is [info.get('sector', 'Unknown')]. *)
Record StockData : Type := {
  sd_symbol : string;
  sd_name : string;
  sd_sector : option string;
  sd_price : Q
}.

(** [StockSearchDialog.get_position_data]; [shares] is
    [self.shares_input.value()] and [now] the formatted [datetime.now()]. *)
Definition get_position_data (stock_data : option StockData) (shares : Q)
    (now : string) : option Row :=
  match stock_data with
  | None => None
  | Some sd =>
      Some {| Symbol := sd_symbol sd;
              Company := sd_name sd;
              Sector := sd_sector sd;
              Shares := shares;
              Current_Price := sd_price sd;
              Total_Value := sd_price sd * shares;
              Last_Updated := Some now |}
  end.

(** The button of the "already in your portfolio" question. *)
Inductive Button : Type :=
  | update_button
  | add_button
  | cancel_button.

(** The four [self.portfolio_df.at[idx, _] = position_data[_]]
    assignments of the "Update" answer. *)
Definition update_existing (position_data row : Row) : Row :=
  {| Symbol := Symbol row;
     Company := Company row;
     Sector := Sector row;
     Shares := Shares position_data;
     Current_Price := Current_Price position_data;
     Total_Value := Total_Value position_data;
     Last_Updated := Last_Updated position_data |}.

(** [df[df['Symbol'] == symbol].index[0]]: the first row with the symbol. *)
Definition first_index (symbol : string) (rows : list Row) : option nat :=
  fst <$> list_find (fun row => Symbol row = symbol) rows.

(** The table [add_position] leaves in [self.portfolio_df], [None] when
    the handler returns before saving (the "Cancel" answer). *)
Definition merge_position (position_data : Row) (clicked : Button)
    (rows : list Row) : option (list Row) :=
  match first_index (Symbol position_data) rows with
  | Some idx =>
      match clicked with
      | update_button => Some (alter (update_existing position_data) idx rows)
      | add_button => Some (rows ++ [position_data])%list
      | cancel_button => None
      end
  | None => Some (rows ++ [position_data])%list
  end.

(** The tail of the handlers: [self.portfolio_df] holds [df], then
    [save_portfolio], whose result is not looked at, then the redraw. *)
Definition save_and_display (disk : Disk) (df : Attr) (tab : Tab)
  : Tab * outcome :=
  update_display
    {| portfolio_df := df;
       data_file := fst (save_portfolio disk df (data_file tab));
       table_rows := table_rows tab |}.

(** [PortfolioOverviewTab.add_position]: [accepted] is the result of
    [dialog.exec()], [position_data] that of [get_position_data] and
    [clicked] the answer to the question asked when the symbol is already
    in the table.  A frame without columns has no column ['Symbol']:
    reading it raises [KeyError]. *)
Definition add_position (disk : Disk) (accepted : bool)
    (position_data : option Row) (clicked : Button) (tab : Tab)
  : Tab * outcome :=
  if accepted then
    match position_data with
    | None => (tab, Returned)
    | Some pd =>
        match portfolio_df tab with
        | AttrNone => save_and_display disk (AttrFrame [pd]) tab
        | AttrFrame rows =>
            match merge_position pd clicked rows with
            | Some rows' => save_and_display disk (AttrFrame rows') tab
            | None => (tab, Returned)
            end
        | AttrNoColumns => (tab, Raises)
        | AttrSelf => (tab, Raises)
        end
    end
  else (tab, Returned).

(** [PortfolioOverviewTab.refresh_portfolio] *)
Definition refresh_portfolio (disk : Disk) (yf : Provider)
    (clock : nat -> string) (tab : Tab) : Tab * outcome :=
  match portfolio_df tab with
  | AttrNone => (tab, Returned)
  | AttrSelf => (tab, Raises)
  | AttrNoColumns => (tab, Returned)
  | AttrFrame [] => (tab, Returned)
  | AttrFrame rows =>
      match update_portfolio_prices yf clock (Holdings rows) with
      | Holdings rows' => save_and_display disk (AttrFrame rows') tab
      | Positions _ => (tab, Raises)
      end
  end.

(** The branch of [PortfolioOverviewTab.process_imported_data] taken when
    the imported file has the columns ['Company'] and ['Sector']
    ([has_full_info]); [imported_df] are its rows, with the columns of an
    exported table.  The statements are in source order:
    the merge, [self.portfolio_df = self], the save, the redraw. *)
Definition process_imported_data_full_info (disk : Disk)
    (imported_df : list Row) (tab : Tab) : Tab * outcome :=
  let merged : result Attr :=
    match portfolio_df tab with
    | AttrNone => Ok (AttrFrame imported_df)
    | AttrFrame [] => Ok (AttrFrame imported_df)
    | AttrFrame rows => Ok (AttrFrame (rows ++ imported_df)%list)
    | AttrNoColumns => Ok (AttrFrame imported_df)
    | AttrSelf => Raised
    end in
  match merged with
  | Raised => (tab, Raises)
  | Ok df =>
      let tab1 := {| portfolio_df := df; data_file := data_file tab;
                     table_rows := table_rows tab |} in
      let tab2 := {| portfolio_df := AttrSelf;
                     data_file := data_file tab1;
                     table_rows := table_rows tab1 |} in
      save_and_display disk (portfolio_df tab2) tab2
  end.

(** ** The command-line report *)

(** [create_portfolio]: the holdings written into the script. *)
Definition create_portfolio : DataFrame :=
  let pos (symbol company sector : string) (shares : Q) :=
    {| pos_Symbol := symbol; pos_Company := company;
       pos_Sector := sector; pos_Shares := shares |} in
  Positions [
    pos "AAPL" "Apple" "Information Technology" 7;
    pos "ALT" "Altimmune" "Health Care" 12;
    pos "AMD" "Advanced Micro Devices" "Information Technology" 0.683;
    pos "ASML" "Asml Holding ADR Representing" "Information Technology" 0.213;
    pos "BA" "Boeing" "Industrials" 0.289;
    pos "BRK-B" "Berkshire Hathaway Class B" "Financials" 6;
    pos "CMG" "Chipotle Mexican Grill" "Consumer Discretionary" 10;
    pos "CRWD" "Crowdstrike Holdings Class A" "Information Technology" 0.16;
    pos "CSX" "Csx" "Industrials" 36;
    pos "ESPR" "Esperion Therapeutics" "Health Care" 75;
    pos "FBGRX" "Fidelity Blue Chip Growth Fund" "ETF" 6.419;
    pos "FBTC" "Fidelity Wise Origin Bitcoin Fund" "ETF" 1.333;
    pos "GH" "Guardant Health" "Health Care" 20;
    pos "IBRX" "Immunitybio" "Health Care" 10;
    pos "INTC" "Intel" "Information Technology" 1.732;
    pos "IOVA" "Iovance Biotherapeutics" "Health Care" 25;
    pos "JPM" "Jpmorgan Chase" "Financials" 0.084;
    pos "LMT" "Lockheed Martin" "Industrials" 0.018;
    pos "MDWD" "Mediwound" "Health Care" 5;
    pos "NNE" "Nano Nuclear Energy" "Industrials" 2.855;
    pos "NVDA" "NVIDIA" "Information Technology" 18;
    pos "OKLO" "Oklo Class A" "Utilities" 3.16;
    pos "ORCL" "Oracle" "Information Technology" 0.187;
    pos "OXY" "Occidental Petroleum" "Energy" 5;
    pos "PLTR" "Palantir Technologies Class A" "Information Technology" 0.094;
    pos "QCOM" "QUALCOMM" "Information Technology" 0.5;
    pos "SBUX" "Starbucks" "Consumer Discretionary" 4;
    pos "SCHD" "Schwab US Dividen Equity ETF" "ETF" 1.747;
    pos "SCHW" "Charles Schwab" "Financials" 16;
    pos "SONY" "Sony Group ADR Representing" "Consumer Discretionary" 30;
    pos "TSLA" "Tesla" "Consumer Discretionary" 0.47;
    pos "TSM" "Taiwan Semiconductor Manufacturing ADR Representing 5"
        "Information Technology" 2;
    pos "VFH" "Vanguard Financials Index Fund ETF" "ETF" 0.357;
    pos "VOO" "Vanguard 500 Index Fund ETF" "ETF" 2.118;
    pos "VRNA" "Verona Pharma ADR" "Health Care" 15;
    pos "VTI" "Vanguard Total Stock Market Index Fund ETF" "ETF" 13
  ].

(** The report of [__main__]: prices, then the allocation. *)
Definition cli_main (sort_values : SortValues) (yf : Provider)
    (clock : nat -> string) : result (list SectorRow) :=
  let portfolio := create_portfolio in
  let portfolio := cli_update_portfolio_prices yf clock portfolio in
  cli_calculate_sector_allocation sort_values portfolio.

(** A provider that cannot be reached: every request raises. *)
Definition offline : Provider :=
  fun _ => {| ticker_info := Raised; ticker_history := Raised |}.

(** ** The rule table of the ETF classification, as the specification
    lists it *)

Definition etf_rule_table : list (list string * string) :=
  [ (["bond"; "treasury"; "income"], "Bond ETF");
    (["nasdaq"; "tech"], "Technology ETF");
    (["s&p"; "500"; "total market"], "Index ETF");
    (["health"], "Healthcare ETF");
    (["energy"; "oil"; "gas"], "Energy ETF");
    (["financial"; "bank"], "Financial ETF");
    (["dividend"; "yield"], "Dividend ETF");
    (["growth"], "Growth ETF");
    (["value"], "Value ETF");
    (["bitcoin"; "crypto"], "Crypto ETF") ].

(** The label of the first bucket one of whose terms occurs in [name],
    the generic label when none does. *)
Fixpoint first_matching_bucket (table : list (list string * string))
    (name : string) : string :=
  match table with
  | [] => "ETF"
  | (terms, label) :: rest =>
      if PyStr.any_in terms name then label
      else first_matching_bucket rest name
  end.

(** ** A sort that can stand for the library's *)

(** Order of two percentages in a column sorted with [ascending=False]
    and the default [na_position='last']: [x] may stand before [y]. *)
Definition xge (x y : xnum) : bool :=
  match x, y with
  | _, NaN => true
  | NaN, _ => false
  | PosInf, _ => true
  | _, NegInf => true
  | Fin a, Fin b => Qle_bool b a
  | Fin _, PosInf => false
  | NegInf, _ => false
  end.

(** Insertion into a list in descending order: [r] goes in front of the
    first row that is not greater. *)
Fixpoint insert_desc (r : SectorRow) (l : list SectorRow) : list SectorRow :=
  match l with
  | [] => [r]
  | x :: l' =>
      if xge (Percentage r) (Percentage x) then r :: x :: l'
      else x :: insert_desc r l'
  end.

(** Insertion sort, from the last row to the first. *)
Definition insertion_sort (l : list SectorRow) : list SectorRow :=
  foldr insert_desc [] l.

(** ** Order of the sectors *)

(** [a < b] on Python strings. *)
Definition sector_lt (a b : string) : Prop := String.ltb a b = true.

(** The same order on the groups of the summary. *)
Definition key_lt (g h : string * Q) : Prop := sector_lt g.1 h.1.

(** ** Providers and tables of the examples *)

(** The ticker of an index fund on the Nasdaq 100. *)
Definition nasdaq_fund : Provider :=
  fun _ =>
    {| ticker_info :=
         Ok {| quoteType := Present "ETF";
               shortName := Present "Nasdaq 100 Technology Index Fund";
               sector := Absent;
               currentPrice := Absent;
               regularMarketPrice := Present 480;
               previousClose := Present 478 |};
       ticker_history := Ok [479; 480] |}.

(** Ford Motor Company: common stock, ticker symbol "F". *)
Definition ford : Provider :=
  fun _ =>
    {| ticker_info :=
         Ok {| quoteType := Present "EQUITY";
               shortName := Present "Ford Motor Company";
               sector := Present "Consumer Cyclical";
               currentPrice := Present 12;
               regularMarketPrice := Present 12;
               previousClose := Present 11.9 |};
       ticker_history := Ok [12] |}.

(** A thinly traded fund: no quote in the info, a last close of 0 in the
    history of the day, a previous close of 5. *)
Definition halted : Ticker :=
  {| ticker_info :=
       Ok {| quoteType := Present "MUTUALFUND";
             shortName := Present "Halted Fund";
             sector := Absent;
             currentPrice := Absent;
             regularMarketPrice := Null;
             previousClose := Present 5 |};
     ticker_history := Ok [0] |}.

(** An index fund the provider reports as a mutual fund. *)
Definition vanguard_fund : Provider :=
  fun _ =>
    {| ticker_info :=
         Ok {| quoteType := Present "MUTUALFUND";
               shortName := Present "Vanguard Total Stock Market Index";
               sector := Absent;
               currentPrice := Absent;
               regularMarketPrice := Present 120;
               previousClose := Present 119 |};
       ticker_history := Ok [120] |}.

(** A provider that quotes every symbol at 150. *)
Definition quoted_150 : Provider :=
  fun _ =>
    {| ticker_info :=
         Ok {| quoteType := Present "EQUITY";
               shortName := Present "Apple Inc.";
               sector := Present "Technology";
               currentPrice := Present 150;
               regularMarketPrice := Present 149;
               previousClose := Present 148 |};
       ticker_history := Ok [149; 150] |}.

(** A provider that knows AAPL, at 150, and no other symbol. *)
Definition aapl_only : Provider :=
  fun symbol =>
    if String.eqb symbol "AAPL" then quoted_150 symbol else offline symbol.

(** One holding of two shares. *)
Definition two_shares : Row :=
  {| Symbol := "AAPL"; Company := "Apple";
     Sector := Some "Information Technology"; Shares := 2;
     Current_Price := 3; Total_Value := 6; Last_Updated := None |}.

(** Two sectors with the same value. *)
Definition two_sectors : list Row :=
  [ {| Symbol := "BA"; Company := "Boeing"; Sector := Some "Industrials";
       Shares := 1; Current_Price := 300; Total_Value := 300;
       Last_Updated := None |};
    {| Symbol := "AAPL"; Company := "Apple"; Sector := Some "Technology";
       Shares := 2; Current_Price := 150; Total_Value := 300;
       Last_Updated := None |} ].

(** Two holdings that were never priced. *)
Definition unpriced : list Row :=
  [ {| Symbol := "AAPL"; Company := "Apple"; Sector := Some "Technology";
       Shares := 7; Current_Price := 0; Total_Value := 0;
       Last_Updated := None |};
    {| Symbol := "BA"; Company := "Boeing"; Sector := Some "Industrials";
       Shares := 1; Current_Price := 0; Total_Value := 0;
       Last_Updated := None |} ].

(** Three sectors with the same value: a third of the portfolio each. *)
Definition thirds : list Row :=
  [ {| Symbol := "AAPL"; Company := "Apple"; Sector := Some "Technology";
       Shares := 1; Current_Price := 100; Total_Value := 100;
       Last_Updated := None |};
    {| Symbol := "BA"; Company := "Boeing"; Sector := Some "Industrials";
       Shares := 1; Current_Price := 100; Total_Value := 100;
       Last_Updated := None |};
    {| Symbol := "OXY"; Company := "Occidental Petroleum";
       Sector := Some "Energy";
       Shares := 1; Current_Price := 100; Total_Value := 100;
       Last_Updated := None |} ].

(** The two sectors and a holding whose sector cell is empty. *)
Definition with_unknown : list Row :=
  (two_sectors
   ++ [ {| Symbol := "ZZZZ"; Company := "Unknown"; Sector := None;
           Shares := 4; Current_Price := 100; Total_Value := 400;
           Last_Updated := None |} ])%list.

(** ** More of the service and of the windows *)

(** [PortfolioService.load_portfolio].  Without a file the result is the
    empty table with the seven columns.  With a file, [read_json] gives
    the table the service saved (a text written by [save_portfolio] is
    taken to read back as the table it was made from), but of the text
    "[]" it makes a frame without columns.  When the file cannot be read
    ([readable] is [false]) or holds a text cut short, the exception is
    caught and the result is the empty table with the seven columns. *)
Definition load_portfolio (readable : bool) (file : File) : Attr :=
  match file with
  | NoFile => AttrFrame []
  | Saved [] => if readable then AttrNoColumns else AttrFrame []
  | Saved rows => if readable then AttrFrame rows else AttrFrame []
  | Cut => AttrFrame []
  end.

(** [PortfolioOverviewTab.load_portfolio], called when the tab is
    built. *)
Definition tab_load_portfolio (readable : bool) (tab : Tab)
  : Tab * outcome :=
  update_display
    {| portfolio_df := load_portfolio readable (data_file tab);
       data_file := data_file tab;
       table_rows := table_rows tab |}.

(** The rows that [df.drop(index=...)] keeps, [index] being the label of
    the first row of [rows]. *)
Fixpoint drop_from (index : nat) (selected : gset nat) (rows : list Row)
  : list Row :=
  match rows with
  | [] => []
  | row :: rows' =>
      if decide (index ∈ selected) then drop_from (S index) selected rows'
      else row :: drop_from (S index) selected rows'
  end.

(** [df.drop(index=rows_to_remove).reset_index(drop=True)]: a label that
    is not in the index raises [KeyError]. *)
Definition df_drop (selected : gset nat) (rows : list Row)
  : result (list Row) :=
  if decide (set_Forall (fun i => (i < length rows)%nat) selected)
  then Ok (drop_from 0 selected rows)
  else Raised.

(** [set(item.row() for item in self.portfolio_table.selectedItems())]:
    the selection is made of items of the table widget, so of row numbers
    below its row count; [picked] are the row numbers the user picks. *)
Definition selected_rows (picked : gset nat) (tab : Tab) : gset nat :=
  filter (fun i => (i < table_rows tab)%nat) picked.

(** [PortfolioOverviewTab.remove_selected]; [confirm] is the answer to
    the question. *)
Definition remove_selected (disk : Disk) (picked : gset nat)
    (confirm : bool) (tab : Tab) : Tab * outcome :=
  if decide (selected_rows picked tab = ∅) then (tab, Returned)
  else if confirm then
    match portfolio_df tab with
    | AttrFrame rows =>
        match df_drop (selected_rows picked tab) rows with
        | Ok rows' => save_and_display disk (AttrFrame rows') tab
        | Raised => (tab, Raises)
        end
    | AttrNoColumns => (tab, Raises)
    | AttrNone | AttrSelf => (tab, Raises)
    end
  else (tab, Returned).

(** [PortfolioTrackerApp.save_portfolio] on the table of the overview
    tab; the result of the service's [save_portfolio] only chooses the
    message shown. *)
Definition app_save_portfolio (disk : Disk) (tab : Tab) : Tab * outcome :=
  match portfolio_df tab with
  | AttrNone => (tab, Returned)
  | AttrSelf => (tab, Raises)
  | AttrNoColumns => (tab, Returned)
  | AttrFrame [] => (tab, Returned)
  | AttrFrame (_ :: _) =>
      ({| portfolio_df := portfolio_df tab;
          data_file :=
            fst (save_portfolio disk (portfolio_df tab) (data_file tab));
          table_rows := table_rows tab |},
       Returned)
  end.

(** The test of [PortfolioTrackerApp.check_auto_refresh] on
    [now.weekday()], [now.hour] and [now.minute]. *)
Definition in_market_hours (weekday hour minute : nat) : bool :=
  ((0 <=? weekday)%nat && (weekday <=? 4)%nat)
  && (((9 <=? hour)%nat && (hour <? 16)%nat)
      || ((hour =? 9)%nat && (30 <=? minute)%nat)).

(** [PortfolioTrackerApp.check_auto_refresh]; [refresh_prices] is
    [refresh_portfolio] of the overview tab. *)
Definition check_auto_refresh (disk : Disk) (yf : Provider)
    (clock : nat -> string) (weekday hour minute : nat) (tab : Tab)
  : Tab * outcome :=
  if in_market_hours weekday hour minute
  then refresh_portfolio disk yf clock tab
  else (tab, Returned).

(** [PortfolioTrackerApp.export_portfolio]: the name and the content of
    the file written, nothing when there is nothing to export, no file
    was chosen or the file could not be opened; [file_path] is the answer
    of the file dialog.  An exception of [to_csv] is caught and reported
    in a message: the handler returns. *)
Definition export_portfolio (disk : Disk) (file_path : string) (tab : Tab)
  : option (string * File) * outcome :=
  match portfolio_df tab with
  | AttrNone => (None, Returned)
  | AttrSelf => (None, Raises)
  | AttrNoColumns => (None, Returned)
  | AttrFrame [] => (None, Returned)
  | AttrFrame rows =>
      if String.eqb file_path "" then (None, Returned)
      else
        let file_path :=
          if negb (PyStr.endswith (PyStr.lower file_path) ".csv")
          then file_path +:+ ".csv"
          else file_path in
        match disk with
        | DiskOk => (Some (file_path, Saved rows), Returned)
        | OpenFails => (None, Returned)
        | WriteFails => (Some (file_path, Cut), Returned)
        end
  end.




(** The table widget is as the last redraw left it: it has one row per
    row of the table of the tab, and no row when the tab holds no
    table. *)
Definition drawn (tab : Tab) : Prop :=
  table_rows tab = match portfolio_df tab with
                   | AttrFrame rows => length rows
                   | AttrNone | AttrNoColumns | AttrSelf => 0%nat
                   end.

(** The tab holds a table with its columns and the table widget shows
    it. *)
Definition shown (tab : Tab) : Prop :=
  exists rows,
    portfolio_df tab = AttrFrame rows /\ table_rows tab = length rows.


(** The sum of a column of numbers. *)
Definition Qsum (l : list Q) : Q := foldr Qplus 0 l.

(** The rows whose sector cell is not empty. *)
Definition with_sector (rows : list Row) : list Row :=
  filter (fun row => is_Some (Sector row)) rows.

(** The number in a cell of the column ['Percentage'], 0 for a cell that
    holds no finite number. *)
Definition percent_value (x : xnum) : Q :=
  match x with
  | Fin q => q
  | PosInf | NegInf | NaN => 0
  end.

(** ** Import of a file with symbols and shares only *)

(** [price * float(shares)] where the shares may be a non-finite float;
    the price is one that passed the truth test, hence not zero. *)
Definition xscale (price : Q) (shares : xnum) : xnum :=
  match shares with
  | Fin q => Fin (price * q)
  | NaN => NaN
  | PosInf =>
      match Qcompare price 0 with
      | Gt => PosInf
      | Lt => NegInf
      | Eq => NaN
      end
  | NegInf =>
      match Qcompare price 0 with
      | Gt => NegInf
      | Lt => PosInf
      | Eq => NaN
      end
  end.

(** One row of [processed_df], the table that
    [PortfolioOverviewTab.process_imported_data] builds when the imported
    file has no ['Company'] or no ['Sector'] column.  ['Shares'] is what
    [pd.to_numeric(..., errors='coerce')] left, [NaN] for a cell that is
    no number; ['Company'] and ['Sector'] hold a text or [None]. *)
Record ImportedRow : Type := {
  imp_Symbol : string;
  imp_Shares : xnum;
  imp_Company : option string;
  imp_Sector : option string;
  imp_Current_Price : Q;
  imp_Total_Value : xnum;
  imp_Last_Updated : string
}.

(** The row as it is before the loop: [processed_df['Company'] = ""] and
    the like. *)
Definition blank_row (now symbol : string) (shares : xnum) : ImportedRow :=
  {| imp_Symbol := symbol; imp_Shares := shares;
     imp_Company := Some ""; imp_Sector := Some "";
     imp_Current_Price := 0; imp_Total_Value := Fin 0;
     imp_Last_Updated := now |}.

(** [processed_df.at[idx, 'Company'] = v] *)
Definition set_company (v : option string) (row : ImportedRow)
  : ImportedRow :=
  {| imp_Symbol := imp_Symbol row; imp_Shares := imp_Shares row;
     imp_Company := v; imp_Sector := imp_Sector row;
     imp_Current_Price := imp_Current_Price row;
     imp_Total_Value := imp_Total_Value row;
     imp_Last_Updated := imp_Last_Updated row |}.

(** [processed_df.at[idx, 'Sector'] = v] *)
Definition set_sector (v : option string) (row : ImportedRow)
  : ImportedRow :=
  {| imp_Symbol := imp_Symbol row; imp_Shares := imp_Shares row;
     imp_Company := imp_Company row; imp_Sector := v;
     imp_Current_Price := imp_Current_Price row;
     imp_Total_Value := imp_Total_Value row;
     imp_Last_Updated := imp_Last_Updated row |}.

(** The two assignments of a successful price lookup. *)
Definition set_imported_price (price : Q) (row : ImportedRow)
  : ImportedRow :=
  {| imp_Symbol := imp_Symbol row; imp_Shares := imp_Shares row;
     imp_Company := imp_Company row; imp_Sector := imp_Sector row;
     imp_Current_Price := price;
     imp_Total_Value := xscale price (imp_Shares row);
     imp_Last_Updated := imp_Last_Updated row |}.

(** The [if]/[elif] chain on the lower-cased name of a mutual fund. *)
Definition fund_sector (fund_name : string) : string :=
  if PyStr.contains "bond" fund_name || PyStr.contains "income" fund_name
  then "Bond Fund"
  else if PyStr.contains "growth" fund_name then "Growth Fund"
  else if PyStr.contains "value" fund_name then "Value Fund"
  else if PyStr.contains "index" fund_name then "Index Fund"
  else "Mutual Fund".

Section SymbolImport.

Variable yf : Provider.

(** The sector the loop assigns: [Raised] when [.lower()] is called on a
    name that is [None]. *)
Definition imported_sector (symbol : string) (info : Info)
  : result (option string) :=
  let security_type := get_security_type yf symbol in
  if String.eqb security_type "ETF" then
    Ok (Some (get_etf_sector_classification yf symbol))
  else if String.eqb security_type "Mutual Fund" then
    let! fund_name := py_lower (dict_get_default (shortName info) "") in
    Ok (Some (fund_sector fund_name))
  else Ok (dict_get_default (sector info) "Unknown").

(** The body of the loop over [processed_df.iterrows()] for one row: the
    row as the [try] block leaves it, and whether [successful_imports]
    was incremented.  An exception ends the block and keeps the
    assignments made before it. *)
Definition import_row (now symbol : string) (shares : xnum)
  : ImportedRow * bool :=
  let row := blank_row now symbol shares in
  match ticker_info (yf symbol) with
  | Raised => (row, false)
  | Ok info =>
      let row := set_company (dict_get_default (shortName info) "Unknown")
                             row in
      match imported_sector symbol info with
      | Raised => (row, false)
      | Ok v =>
          let row := set_sector v row in
          let price := get_price yf symbol in
          if truthy price then
            match price with
            | Some p => (set_imported_price p row, true)
            | None => (row, false)
            end
          else (row, false)
      end
  end.

(** [processed_df] after the loop and [successful_imports]; [imported]
    holds the symbol and the shares of each row after the clean-up of the
    two columns (strip and upper-case, [to_numeric]). *)
Definition import_rows (now : string) (imported : list (string * xnum))
  : list ImportedRow * nat :=
  let results := map (fun '(symbol, shares) => import_row now symbol shares)
                     imported in
  (map fst results, length (filter (fun r => snd r = true) results)).

End SymbolImport.

(** * Properties *)

(** ** Substrings *)

Module PyStrFacts.
Import PyStr.

Lemma append_nil_l (s : string) : "" +:+ s = s.
Proof. reflexivity. Qed.

Lemma append_cons (a : Ascii.ascii) (s t : string) :
  String a s +:+ t = String a (s +:+ t).
Proof. reflexivity. Qed.

Lemma append_assoc (a b c : string) : (a +:+ b) +:+ c = a +:+ b +:+ c.
Proof.
  induction a as [|x a IH]; [done |].
  by rewrite !append_cons, IH.
Qed.

Lemma startswith_spec (s t : string) :
  startswith s t = true <-> exists post, s = t +:+ post.
Proof.
  revert s. induction t as [|a t IH]; intros s; simpl.
  - split; [intros _; by exists s | done].
  - destruct s as [|b s].
    + split; [done | intros [post H]; discriminate H].
    + rewrite andb_true_iff, IH. split.
      * intros [Hab [post ->]]. apply Ascii.eqb_eq in Hab as ->.
        by exists post.
      * intros [post H]. rewrite append_cons in H.
        injection H as -> ->. split.
        -- apply Ascii.eqb_refl.
        -- by exists post.
Qed.

Lemma contains_spec (t s : string) :
  contains t s = true <-> exists pre post, s = pre +:+ t +:+ post.
Proof.
  induction s as [|b s IH].
  - simpl. rewrite orb_false_r, startswith_spec. split.
    + intros [post H]. by exists "", post.
    + intros [pre [post H]]. destruct pre; [by exists post | discriminate H].
  - change (contains t (String b s))
      with (startswith (String b s) t || contains t s).
    rewrite orb_true_iff, startswith_spec, IH. split.
    + intros [[post H] | [pre [post H]]].
      * by exists "", post.
      * exists (String b pre), post. by rewrite append_cons, H.
    + intros [pre [post H]]. destruct pre as [|c pre].
      * left. by exists post.
      * right. rewrite append_cons in H.
        injection H as -> ->. by exists pre, post.
Qed.

(** A substring of a substring is a substring. *)
Lemma contains_trans (u t s : string) :
  contains u t = true -> contains t s = true -> contains u s = true.
Proof.
  rewrite !contains_spec.
  intros [p1 [q1 ->]] [p2 [q2 ->]].
  exists (p2 +:+ p1), (q1 +:+ q2).
  by rewrite !append_assoc.
Qed.

(** A term that extends another term of the same bucket adds no
    match. *)
Lemma contains_absorb (u t name : string) :
  contains u t = true ->
  contains u name || contains t name = contains u name.
Proof.
  intros Hut. destruct (contains t name) eqn:E.
  - by rewrite (contains_trans u t name Hut E).
  - by rewrite orb_false_r.
Qed.

Lemma any_in_cons (t : string) (terms : list string) (name : string) :
  any_in (t :: terms) name = contains t name || any_in terms name.
Proof. reflexivity. Qed.

Lemma any_in_nil (name : string) : any_in [] name = false.
Proof. reflexivity. Qed.

(** No character of a lower-cased string is an upper-case letter. *)
Lemma lower_ascii_not_upper (c : Ascii.ascii) :
  let n := Ascii.nat_of_ascii (lower_ascii c) in
  ((65 <=? n)%nat && (n <=? 90)%nat) = false.
Proof.
  destruct c as [[] [] [] [] [] [] [] []]; vm_compute; reflexivity.
Qed.

Lemma chars_append (a b : string) :
  chars (a +:+ b) = (chars a ++ chars b)%list.
Proof.
  induction a as [|x a IH]; [done |].
  rewrite append_cons. simpl. by rewrite IH.
Qed.

Lemma chars_lower (s : string) (c : Ascii.ascii) :
  c ∈ chars (lower s) ->
  let n := Ascii.nat_of_ascii c in
  ((65 <=? n)%nat && (n <=? 90)%nat) = false.
Proof.
  induction s as [|x s IH]; simpl.
  - intros H. by apply elem_of_nil in H.
  - intros H. apply elem_of_cons in H as [-> | H].
    + apply lower_ascii_not_upper.
    + by apply IH.
Qed.

(** A term with an upper-case letter never occurs in a lower-cased
    string. *)
Lemma contains_upper_in_lower (t s : string) (c : Ascii.ascii) :
  c ∈ chars t ->
  (let n := Ascii.nat_of_ascii c in
   ((65 <=? n)%nat && (n <=? 90)%nat) = true) ->
  contains t (lower s) = false.
Proof.
  intros Hc Hup. destruct (contains t (lower s)) eqn:E; [| done].
  apply contains_spec in E as [pre [post E]].
  assert (c ∈ chars (lower s)) as Hin.
  { rewrite E, !chars_append, !elem_of_app. auto. }
  apply chars_lower in Hin. simpl in *. congruence.
Qed.

End PyStrFacts.

(** ** ETF classification by short name *)

Section EtfClassification.
Import PyStr PyStrFacts.

Variable yf : Provider.

Lemma technology_bucket (name : string) :
  any_in ["nasdaq"; "tech"; "technology"] name
  = any_in ["nasdaq"; "tech"] name.
Proof.
  rewrite !any_in_cons, !any_in_nil, !orb_false_r.
  by rewrite (contains_absorb "tech" "technology").
Qed.

Lemma index_bucket (name : string) :
  any_in ["s&p"; "sp500"; "500"; "total market"] name
  = any_in ["s&p"; "500"; "total market"] name.
Proof.
  rewrite !any_in_cons, !any_in_nil, !orb_false_r.
  rewrite (orb_assoc (contains "sp500" name)).
  rewrite (orb_comm (contains "sp500" name)).
  by rewrite (contains_absorb "500" "sp500").
Qed.

Lemma healthcare_bucket (name : string) :
  any_in ["health"; "healthcare"] name = any_in ["health"] name.
Proof.
  rewrite !any_in_cons, !any_in_nil, !orb_false_r.
  by rewrite (contains_absorb "health" "healthcare").
Qed.

(** C7: when the provider answers with a short name, the label returned
    is that of the first bucket of the rule table (bond/treasury/income,
    nasdaq/tech, s&p/500/total market, health, energy/oil/gas,
    financial/bank, dividend/yield, growth, value, bitcoin/crypto, in
    this order) with a term in the lower-cased name, and "ETF" when no
    bucket has one; the name "Nasdaq 100 Technology Index Fund" is in
    the Technology bucket. *)
Theorem etf_classification_first_match (symbol : string) (info : Info)
    (short_name : string) :
  ticker_info (yf symbol) = Ok info ->
  shortName info = Present short_name ->
  get_etf_sector_classification yf symbol
  = first_matching_bucket etf_rule_table (lower short_name)
  /\ first_matching_bucket etf_rule_table
       (lower "Nasdaq 100 Technology Index Fund") = "Technology ETF".
Proof.
  intros Hinfo Hname. split; [| vm_compute; reflexivity].
  unfold get_etf_sector_classification.
  rewrite Hinfo. cbn [rbind]. rewrite Hname.
  cbn [dict_get_default py_lower rbind].
  set (name := lower short_name).
  rewrite technology_bucket, index_bucket, healthcare_bucket.
  unfold etf_rule_table, first_matching_bucket.
  repeat (destruct (any_in _ name); [reflexivity |]).
  reflexivity.
Qed.

(** C10: when reading the ticker's info raises, or the info has no
    short name (the key is absent, or its value is [None]), the
    classification is the generic "ETF"; no exception reaches the
    caller. *)
Theorem etf_classification_provider_failure (symbol : string) :
  ticker_info (yf symbol) = Raised
  \/ (exists info, ticker_info (yf symbol) = Ok info
                   /\ (shortName info = Absent \/ shortName info = Null)) ->
  get_etf_sector_classification yf symbol = "ETF".
Proof.
  unfold get_etf_sector_classification.
  intros [H | [info [H [Hname | Hname]]]]; rewrite H; cbn [rbind];
    rewrite ?Hname; reflexivity.
Qed.

End EtfClassification.

Lemma etf_classification_first_match_nasdaq :
  get_etf_sector_classification nasdaq_fund "QQQ" = "Technology ETF".
Proof.
  destruct (etf_classification_first_match nasdaq_fund "QQQ" _
              "Nasdaq 100 Technology Index Fund" eq_refl eq_refl)
    as [Hcode Hbucket].
  rewrite Hcode. exact Hbucket.
Defined.

Lemma etf_classification_provider_failure_offline :
  get_etf_sector_classification offline "QQQ" = "ETF".
Proof.
  apply (etf_classification_provider_failure offline "QQQ").
  left. reflexivity.
Defined.

(** ** Classification of a security *)

Section SecurityType.
Import PyStr PyStrFacts.

Variable yf : Provider.

(** The test ['mutualFund' in info.get('quoteType', '').lower()] looks
    for a capital letter in a lower-cased string. *)
Lemma mutual_fund_test_never_matches (info : Info) (qt : string) :
  quote_type_lower info = Ok qt -> contains "mutualFund" qt = false.
Proof.
  unfold quote_type_lower, py_lower.
  destruct (dict_get_default (quoteType info) "") as [s|]; [| done].
  intros [= <-]. apply contains_upper_in_lower with (Ascii.ascii_of_nat 70).
  - cbn. rewrite !elem_of_cons. auto 10.
  - reflexivity.
Qed.

Lemma security_type_when_info (symbol : string) (info : Info) (qt : string) :
  ticker_info (yf symbol) = Ok info ->
  quote_type_lower info = Ok qt ->
  get_security_type yf symbol =
    if contains "etf" qt || endswith symbol "F" then "ETF"
    else if endswith symbol "X" then "Mutual Fund"
    else if contains "index" qt then "Index"
    else "Stock".
Proof.
  intros Hinfo Hqt. unfold get_security_type.
  rewrite Hinfo. cbn [rbind]. rewrite Hqt. cbn [rbind].
  rewrite (mutual_fund_test_never_matches info qt Hqt), orb_false_l.
  destruct (contains "etf" qt || endswith symbol "F"); [reflexivity |].
  destruct (endswith symbol "X"); [reflexivity |].
  destruct (contains "index" qt); reflexivity.
Qed.


End SecurityType.



(** ** Refreshing the prices *)

Lemma truthy_zero (p : Q) : p == 0 -> truthy (Some p) = false.
Proof.
  intros H. unfold truthy. apply Qeq_bool_iff in H. by rewrite H.
Qed.

Section RefreshFacts.

Variable yf : Provider.
Variable clock : nat -> string.

Lemma refresh_row_failed (index : nat) (row : Row) :
  truthy (get_price yf (Symbol row)) = false ->
  refresh_row yf clock index row = row.
Proof. intros H. unfold refresh_row. by rewrite H. Qed.

Lemma refresh_row_succeeded (index : nat) (row : Row) (p : Q) :
  get_price yf (Symbol row) = Some p ->
  truthy (Some p) = true ->
  refresh_row yf clock index row = set_price row p (clock index).
Proof. intros H Ht. unfold refresh_row. by rewrite H, Ht. Qed.

(** Each row is refreshed or kept, never dropped or renamed. *)
Lemma refresh_row_symbol (index : nat) (row : Row) :
  Symbol (refresh_row yf clock index row) = Symbol row.
Proof.
  unfold refresh_row.
  destruct (truthy _); [| done]. by destruct (get_price _ _).
Qed.

Lemma set_price_valued (row : Row) (p : Q) (now : string) :
  valued (set_price row p now).
Proof. unfold valued. simpl. reflexivity. Qed.

Lemma refresh_row_kept_or_valued (index : nat) (row : Row) :
  refresh_row yf clock index row = row
  \/ valued (refresh_row yf clock index row).
Proof.
  unfold refresh_row.
  destruct (truthy _); [| by left].
  destruct (get_price _ _); [right; apply set_price_valued | by left].
Qed.

(** On a table with the seven columns the refresh is a map over the
    rows, empty table included. *)
Lemma update_holdings (rows : list Row) :
  update_portfolio_prices yf clock (Holdings rows)
  = Holdings (imap (refresh_row yf clock) rows).
Proof. by destruct rows. Qed.

(** The report's refresh is the tab's. *)
Lemma cli_update_holdings (rows : list Row) :
  cli_update_portfolio_prices yf clock (Holdings rows)
  = update_portfolio_prices yf clock (Holdings rows).
Proof. by rewrite update_holdings. Qed.

Lemma imap_refresh_symbols (rows : list Row) :
  map Symbol (imap (refresh_row yf clock) rows) = map Symbol rows.
Proof.
  apply list_eq. intros i.
  rewrite !list_lookup_fmap, list_lookup_imap.
  destruct (rows !! i) as [row|]; simpl; [| done].
  by rewrite refresh_row_symbol.
Qed.

(** C2: a refresh of a holdings table never fails as a whole.  It keeps
    the number of rows and the symbols in their order; a row whose
    lookup gives no usable price is the same row afterwards, in every
    field; a row whose lookup gives a price has that price, the value
    price times shares and the time stamp of the refresh, and its
    symbol, company, sector and shares as before.  What happens to one
    row does not depend on the lookups of the others.  The tab's and the
    report's refresh agree. *)
Theorem refresh_frame (rows : list Row) :
  exists rows',
    update_portfolio_prices yf clock (Holdings rows) = Holdings rows'
    /\ cli_update_portfolio_prices yf clock (Holdings rows) = Holdings rows'
    /\ length rows' = length rows
    /\ map Symbol rows' = map Symbol rows
    /\ forall (i : nat) (row : Row),
         rows !! i = Some row ->
         (truthy (get_price yf (Symbol row)) = false ->
          rows' !! i = Some row)
         /\ (forall p,
               get_price yf (Symbol row) = Some p ->
               truthy (Some p) = true ->
               exists row',
                 rows' !! i = Some row'
                 /\ Symbol row' = Symbol row
                 /\ Company row' = Company row
                 /\ Sector row' = Sector row
                 /\ Shares row' = Shares row
                 /\ Current_Price row' = p
                 /\ Total_Value row' = p * Shares row
                 /\ Last_Updated row' = Some (clock i)).
Proof.
  exists (imap (refresh_row yf clock) rows).
  split; [apply update_holdings |].
  split; [by rewrite cli_update_holdings, update_holdings |].
  split; [apply length_imap |].
  split; [apply imap_refresh_symbols |].
  intros i row Hrow. rewrite list_lookup_imap, Hrow. simpl. split.
  - intros Hfail. by rewrite refresh_row_failed.
  - intros p Hp Ht. rewrite (refresh_row_succeeded i row p Hp Ht).
    exists (set_price row p (clock i)). by repeat split.
Qed.

End RefreshFacts.

(** ** A price of zero *)

(** C9, as the code has it: a symbol whose price resolves to 0 is treated
    by the refresh like a failed fetch, its row is the same row afterwards.
    In [get_price] the stages that read a field of the info
    ([currentPrice], [regularMarketPrice], [previousClose]) skip a value
    of 0 and hand over to the next stage, the last one to "no price".
    The history stage tests that the history is not empty, not the value:
    the last close is returned whatever it is. *)
Theorem zero_price_is_no_price :
  (forall (yf : Provider) (clock : nat -> string) (rows : list Row)
          (i : nat) (row : Row) (p : Q),
      rows !! i = Some row ->
      get_price yf (Symbol row) = Some p ->
      p == 0 ->
      exists rows',
        update_portfolio_prices yf clock (Holdings rows) = Holdings rows'
        /\ cli_update_portfolio_prices yf clock (Holdings rows) = Holdings rows'
        /\ rows' !! i = Some row)
  /\ (forall (t : Ticker) (info : Info) (p : Q),
        ticker_info t = Ok info ->
        p == 0 ->
        (currentPrice info = Present p ->
         price_from_current t = price_from_regular_market t)
        /\ (regularMarketPrice info = Present p ->
            price_from_regular_market t = price_from_history t)
        /\ (previousClose info = Present p ->
            price_from_previous_close t = Ok None))
  /\ (forall (t : Ticker) (hist : list Q),
        ticker_history t = Ok hist ->
        hist <> [] ->
        price_from_history t = Ok (last hist)).
Proof.
  split; [| split].
  - intros yf clock rows i row p Hrow Hp Hz.
    exists (imap (refresh_row yf clock) rows).
    split; [apply update_holdings |].
    split; [by rewrite cli_update_holdings, update_holdings |].
    rewrite list_lookup_imap, Hrow. simpl.
    rewrite refresh_row_failed; [done |].
    rewrite Hp. by apply truthy_zero.
  - intros t info p Hinfo Hz. repeat split.
    + intros H. unfold price_from_current.
      rewrite Hinfo. cbn [rbind]. rewrite H. cbn [dict_get].
      by rewrite (truthy_zero p Hz).
    + intros H. unfold price_from_regular_market.
      rewrite Hinfo. cbn [rbind]. rewrite H. cbn [dict_get].
      by rewrite (truthy_zero p Hz).
    + intros H. unfold price_from_previous_close.
      rewrite Hinfo. cbn [rbind]. rewrite H. cbn [dict_get].
      by rewrite (truthy_zero p Hz).
  - intros t hist Hhist Hne. unfold price_from_history.
    rewrite Hhist. cbn [rbind]. by destruct hist.
Qed.

Lemma zero_price_is_no_price_halted :
  let yf : Provider := fun _ => halted in
  let row := {| Symbol := "HLTD"; Company := "Halted Fund";
                Sector := Some "Mutual Fund"; Shares := 3; Current_Price := 4;
                Total_Value := 12; Last_Updated := None |} in
  exists rows',
    update_portfolio_prices yf (fun _ => "2024-01-02 10:00:00")
      (Holdings [row]) = Holdings rows'
    /\ cli_update_portfolio_prices yf (fun _ => "2024-01-02 10:00:00")
         (Holdings [row]) = Holdings rows'
    /\ rows' !! 0%nat = Some row.
Proof.
  intros yf row.
  destruct zero_price_is_no_price as [H _].
  apply (H yf _ [row] 0%nat row 0); reflexivity.
Defined.

(** C9 as stated does not hold for the history stage: the fetched close
    is 0 and the previous close of 5 is never consulted. *)
Lemma history_stage_returns_zero :
  ticker_history halted = Ok [0]
  /\ price_from_previous_close halted = Ok (Some 5)
  /\ price_from_history halted = Ok (Some 0)
  /\ get_price (fun _ => halted) "HLTD" = Some 0.
Proof. repeat split. Qed.

(** ** The value of a row is its price times its shares *)

Lemma get_position_data_valued (sd : option StockData) (shares : Q)
    (now : string) (pd : Row) :
  get_position_data sd shares now = Some pd -> valued pd.
Proof.
  destruct sd as [sd|]; simpl; [| done].
  intros [= <-]. unfold valued. simpl. reflexivity.
Qed.

Lemma update_existing_valued (pd row : Row) :
  valued pd -> valued (update_existing pd row).
Proof. unfold valued. simpl. done. Qed.

(** The merged table, row by row: a row of the table before is kept
    where it was or, under the "Update" answer, rewritten from the
    position entered; a row beyond the old table is the position
    entered. *)
Lemma merge_position_rows (pd : Row) (clicked : Button)
    (rows rows' : list Row) :
  merge_position pd clicked rows = Some rows' ->
  (forall i row,
      rows !! i = Some row ->
      rows' !! i = Some row \/ rows' !! i = Some (update_existing pd row))
  /\ (forall i row',
        rows' !! i = Some row' -> rows !! i = None -> row' = pd).
Proof.
  unfold merge_position. intros Hmerge.
  assert ((forall i row,
             rows !! i = Some row ->
             (rows ++ [pd])%list !! i = Some row
             \/ (rows ++ [pd])%list !! i = Some (update_existing pd row))
          /\ (forall i row',
                (rows ++ [pd])%list !! i = Some row' -> rows !! i = None ->
                row' = pd)) as Happ.
  { split.
    - intros i row Hi. left. by apply lookup_app_l_Some.
    - intros i row' Hi' Hi. apply lookup_ge_None in Hi.
      rewrite lookup_app_r in Hi' by done.
      apply list_lookup_singleton_Some in Hi' as [_ ?]. done. }
  destruct (first_index (Symbol pd) rows) as [idx|];
    [destruct clicked |]; simplify_eq; try exact Happ.
  split.
  - intros i row Hi. destruct (decide (idx = i)) as [-> | Hne].
    + right. by rewrite list_lookup_alter_eq, Hi.
    + left. by rewrite list_lookup_alter_ne.
  - intros i row' Hi' Hi.
    destruct (decide (idx = i)) as [-> | Hne].
    + rewrite list_lookup_alter_eq, Hi in Hi'. done.
    + rewrite list_lookup_alter_ne, Hi in Hi' by done. done.
Qed.

(** What [add_position] does to a tab that holds a table: the merged
    table is kept, written to the file as far as the file system lets it,
    and shown; or nothing happens. *)
Lemma add_position_frame (disk : Disk) (pd : Row) (clicked : Button)
    (rows : list Row) (file : File) (n : nat) :
  add_position disk true (Some pd) clicked
    {| portfolio_df := AttrFrame rows; data_file := file; table_rows := n |}
  = match merge_position pd clicked rows with
    | Some rows' =>
        ({| portfolio_df := AttrFrame rows';
            data_file := fst (save_portfolio disk (AttrFrame rows') file);
            table_rows := length rows' |},
         Returned)
    | None =>
        ({| portfolio_df := AttrFrame rows; data_file := file;
            table_rows := n |}, Returned)
    end.
Proof.
  unfold add_position. cbn [portfolio_df].
  by destruct (merge_position pd clicked rows).
Qed.

(** C1: the value of every row is its price times its shares, and stays
    so.  A refresh (the tab's and the report's) of a table whose rows all
    have that property gives a table whose rows all have it; each row is
    the row it was or has its value set from the new price in the same
    step.  The merge of a position entered in the dialog does the same:
    the rows of the table are kept where they were, the one row the
    "Update" answer rewrites takes shares, price and value together from
    the position, whose value is its price times its shares, and a row
    that is added is that position; [add_position] leaves the merged
    table in the tab. *)
Theorem total_value_is_price_times_shares :
  (forall (yf : Provider) (clock : nat -> string) (rows : list Row),
      exists rows',
        update_portfolio_prices yf clock (Holdings rows) = Holdings rows'
        /\ cli_update_portfolio_prices yf clock (Holdings rows) = Holdings rows'
        /\ (Forall valued rows -> Forall valued rows')
        /\ (forall (i : nat) (row row' : Row),
              rows !! i = Some row -> rows' !! i = Some row' ->
              row' = row \/ valued row'))
  /\ (forall (sd : StockData) (shares : Q) (now : string) (pd : Row)
             (clicked : Button) (rows rows' : list Row),
        get_position_data (Some sd) shares now = Some pd ->
        merge_position pd clicked rows = Some rows' ->
        (Forall valued rows -> Forall valued rows')
        /\ (forall (i : nat) (row : Row),
              rows !! i = Some row ->
              rows' !! i = Some row
              \/ (rows' !! i = Some (update_existing pd row)
                  /\ valued (update_existing pd row)))
        /\ (forall (i : nat) (row' : Row),
              rows' !! i = Some row' -> rows !! i = None ->
              row' = pd /\ valued pd))
  /\ (forall (disk : Disk) (pd : Row) (clicked : Button) (rows : list Row)
             (file : File) (n : nat),
        portfolio_df
          (add_position disk true (Some pd) clicked
             {| portfolio_df := AttrFrame rows; data_file := file;
                table_rows := n |}).1
        = AttrFrame (default rows (merge_position pd clicked rows))).
Proof.
  split; [| split].
  - intros yf clock rows.
    exists (imap (refresh_row yf clock) rows).
    split; [apply update_holdings |].
    split; [by rewrite cli_update_holdings, update_holdings |].
    assert (forall (i : nat) (row row' : Row),
              rows !! i = Some row ->
              imap (refresh_row yf clock) rows !! i = Some row' ->
              row' = row \/ valued row') as Hrow.
    { intros i row row' Hi Hi'.
      rewrite list_lookup_imap, Hi in Hi'. simplify_eq/=.
      apply refresh_row_kept_or_valued. }
    split; [| exact Hrow].
    intros Hall. apply Forall_lookup. intros i row' Hi'.
    destruct (rows !! i) as [row|] eqn:Hi.
    + destruct (Hrow i row row' Hi Hi') as [-> | Hv]; [| done].
      by apply (Forall_lookup_1 _ _ _ _ Hall Hi).
    + rewrite list_lookup_imap, Hi in Hi'. done.
  - intros sd shares now pd clicked rows rows' Hpd Hmerge.
    apply get_position_data_valued in Hpd.
    destruct (merge_position_rows pd clicked rows rows' Hmerge)
      as [Hold Hnew].
    split; [| split].
    + intros Hall. apply Forall_lookup. intros i row' Hi'.
      destruct (rows !! i) as [row|] eqn:Hi.
      * destruct (Hold i row Hi) as [H | H]; rewrite H in Hi'; simplify_eq.
        -- by apply (Forall_lookup_1 _ _ _ _ Hall Hi).
        -- by apply update_existing_valued.
      * by rewrite (Hnew i row' Hi' Hi).
    + intros i row Hi. destruct (Hold i row Hi) as [H | H]; [by left |].
      right. split; [done | by apply update_existing_valued].
    + intros i row' Hi' Hi. split; [by apply (Hnew i) | done].
  - intros disk pd clicked rows file n. rewrite add_position_frame.
    by destruct (merge_position pd clicked rows).
Qed.

Lemma total_value_is_price_times_shares_aapl :
  let sd := {| sd_symbol := "AAPL"; sd_name := "Apple";
               sd_sector := Some "Information Technology";
               sd_price := 150 |} in
  let ba := {| Symbol := "BA"; Company := "Boeing";
               Sector := Some "Industrials"; Shares := 1;
               Current_Price := 300; Total_Value := 300;
               Last_Updated := None |} in
  let new := {| Symbol := "AAPL"; Company := "Apple";
                Sector := Some "Information Technology"; Shares := 7;
                Current_Price := 150; Total_Value := 150 * 7;
                Last_Updated := Some "2024-01-02 10:00:00" |} in
  get_position_data (Some sd) 7 "2024-01-02 10:00:00" = Some new
  /\ merge_position new update_button [ba; two_shares]
     = Some [ba; update_existing new two_shares]
  /\ Forall valued [ba; two_shares]
  /\ Forall valued [ba; update_existing new two_shares].
Proof.
  intros sd ba new.
  destruct total_value_is_price_times_shares as [_ [H _]].
  destruct (H sd 7 "2024-01-02 10:00:00" new update_button
              [ba; two_shares] [ba; update_existing new two_shares]
              eq_refl eq_refl) as [Hall _].
  assert (Forall valued [ba; two_shares]) as Hold.
  { repeat constructor. }
  split; [reflexivity |]. split; [reflexivity |].
  split; [exact Hold | exact (Hall Hold)].
Defined.

(** ** The insertion sort returns the rows it was given *)

Lemma insert_desc_perm (r : SectorRow) (l : list SectorRow) :
  insert_desc r l ≡ₚ r :: l.
Proof.
  induction l as [|x l IH]; simpl; [done |].
  destruct (xge _ _); [done |].
  rewrite IH. apply Permutation_swap.
Qed.

Lemma insertion_sort_perm (l : list SectorRow) : insertion_sort l ≡ₚ l.
Proof.
  induction l as [|x l IH]; simpl; [done |].
  by rewrite insert_desc_perm, IH.
Qed.

Lemma insertion_sort_contract : rearranges insertion_sort.
Proof. exact insertion_sort_perm. Qed.

(** ** Grouping by sector *)

Lemma sector_lt_compare (a b : string) :
  sector_lt a b <-> (a ?= b)%string = Lt.
Proof.
  unfold sector_lt, String.ltb. by destruct (a ?= b)%string.
Qed.

Lemma compare_gt_lt (a b : string) :
  (a ?= b)%string = Gt -> (b ?= a)%string = Lt.
Proof.
  intros H. rewrite String.compare_antisym, H. reflexivity.
Qed.

Global Instance sector_lt_trans : Transitive sector_lt.
Proof.
  intros a b c. rewrite !sector_lt_compare. intros Hab Hbc.
  assert (String.le a c) as Hle.
  { transitivity b; unfold String.le, String.leb; [by rewrite Hab | by rewrite Hbc]. }
  unfold String.le, String.leb in Hle.
  destruct (a ?= c)%string eqn:Hac; [| done | done].
  apply String.compare_eq_iff in Hac as ->.
  rewrite String.compare_antisym, Hbc in Hab. discriminate Hab.
Qed.

Global Instance key_lt_trans : Transitive key_lt.
Proof. intros a b c. apply sector_lt_trans. Qed.

Lemma group_add_hd (g : string * Q) (key : string) (v : Q)
    (groups : list (string * Q)) :
  sector_lt g.1 key -> HdRel key_lt g groups ->
  HdRel key_lt g (group_add key v groups).
Proof.
  intros Hkey Hhd. destruct groups as [|[k s] rest]; simpl.
  - by constructor.
  - apply HdRel_inv in Hhd.
    destruct (key ?= k)%string; by constructor.
Qed.

Lemma group_add_sorted (key : string) (v : Q) (groups : list (string * Q)) :
  Sorted key_lt groups -> Sorted key_lt (group_add key v groups).
Proof.
  induction groups as [|[k s] rest IH]; simpl; intros Hs.
  - by repeat constructor.
  - apply Sorted_inv in Hs as [Hrest Hhd].
    destruct (key ?= k)%string eqn:E.
    + constructor; [done |].
      destruct rest as [|h rest]; constructor.
      by apply HdRel_inv in Hhd.
    + constructor; [by constructor |].
      constructor. by apply sector_lt_compare.
    + constructor; [by apply IH |].
      apply group_add_hd; [| done].
      by apply sector_lt_compare, compare_gt_lt.
Qed.

(** The summary has its sectors in strictly ascending order, hence one
    row per sector. *)
Lemma groupby_sum_sorted (rows : list Row) :
  StronglySorted key_lt (groupby_sum rows).
Proof.
  apply Sorted_StronglySorted; [apply _ |].
  unfold groupby_sum.
  assert (forall acc, Sorted key_lt acc ->
            Sorted key_lt (fold_left group_row rows acc)) as H.
  { induction rows as [|row rows IH]; simpl; [done |].
    intros acc Hacc. apply IH. unfold group_row.
    destruct (Sector row); [by apply group_add_sorted | done]. }
  apply H. constructor.
Qed.

(** ** The allocation *)

Section AllocationFacts.

Variable sort_values : SortValues.
Hypothesis contract : rearranges sort_values.

(** What the tab's computation returns on a non-empty table. *)
Lemma allocation_of_holdings (row : Row) (rows : list Row) :
  calculate_sector_allocation sort_values (Holdings (row :: rows))
  = sort_values
      (with_percentage
         (fun v =>
            if negb (Qle_bool (total_value_sum (row :: rows)) 0)
            then Fin (round2 (v / total_value_sum (row :: rows) * 100))
            else Fin 0)
         (groupby_sum (row :: rows))).
Proof.
  unfold calculate_sector_allocation.
  cbn [df_empty has_total_value negb orb].
  by destruct (negb (Qle_bool _ 0)).
Qed.

Lemma sort_values_perm (l : list SectorRow) : sort_values l ≡ₚ l.
Proof. apply contract. Qed.

Lemma sort_values_nil : sort_values [] = [].
Proof. apply Permutation_nil_r, sort_values_perm. Qed.

(** C8: the allocation of an empty table is the empty allocation, with
    or without the valuation columns; nothing is raised. *)
Theorem allocation_of_empty_table :
  calculate_sector_allocation sort_values (Holdings []) = []
  /\ calculate_sector_allocation sort_values (Positions []) = [].
Proof. by split. Qed.

(** The report's computation on an empty table with its columns. *)
Lemma report_allocation_of_empty_table :
  cli_calculate_sector_allocation sort_values (Holdings []) = Ok [].
Proof.
  unfold cli_calculate_sector_allocation. simpl. by rewrite sort_values_nil.
Qed.

(** The tab's computation never divides by a total that is not
    positive: every percentage is then the number 0. *)
Lemma allocation_of_zero_total (rows : list Row) :
  total_value_sum rows <= 0 ->
  Forall (fun r => Percentage r = Fin 0)
         (calculate_sector_allocation sort_values (Holdings rows)).
Proof.
  intros Htotal. destruct rows as [|row rows]; [constructor |].
  rewrite allocation_of_holdings.
  rewrite sort_values_perm. unfold with_percentage.
  apply Forall_fmap, Forall_forall. intros [s v] _. simpl.
  apply Qle_bool_iff in Htotal. by rewrite Htotal.
Qed.

Lemma xdiv_by_zero (v total : Q) :
  total == 0 -> forall q, xpercent (xdiv v total) <> Fin q.
Proof.
  intros Hz q. unfold xdiv. apply Qeq_bool_iff in Hz. rewrite Hz.
  by destruct (Qcompare v 0).
Qed.

(** The report's computation divides by the total whatever it is. *)
Lemma report_allocation_not_finite (rows : list Row)
    (out : list SectorRow) :
  total_value_sum rows == 0 ->
  cli_calculate_sector_allocation sort_values (Holdings rows) = Ok out ->
  Forall (fun r => forall q, Percentage r <> Fin q) out.
Proof.
  intros Hz Hout. unfold cli_calculate_sector_allocation in Hout.
  simplify_eq. rewrite sort_values_perm. unfold with_percentage.
  apply Forall_fmap, Forall_forall. intros [s v] _. simpl.
  by apply xdiv_by_zero.
Qed.

(** C4 on the report: without a connection no price is found, every
    value stays 0.0, the total is zero, and the report divides by it.
    Every percentage of its allocation is undefined.  The tab's
    computation on the same table gives 0 for every sector. *)
Theorem report_divides_by_zero_total (clock : nat -> string) :
  exists rows alloc,
    cli_update_portfolio_prices offline clock create_portfolio = Holdings rows
    /\ total_value_sum rows == 0
    /\ cli_main sort_values offline clock = Ok alloc
    /\ length alloc = 8%nat
    /\ Forall (fun r => Percentage r = NaN) alloc
    /\ Forall (fun r => Percentage r = Fin 0)
         (calculate_sector_allocation sort_values (Holdings rows)).
Proof.
  set (rows := add_missing_columns create_portfolio).
  assert (cli_update_portfolio_prices offline clock create_portfolio
          = Holdings rows) as Hrows.
  { unfold cli_update_portfolio_prices. f_equal. }
  exists rows.
  exists (sort_values
            (with_percentage
               (fun v => xpercent (xdiv v (total_value_sum rows)))
               (groupby_sum rows))).
  split; [exact Hrows |].
  split; [vm_compute; reflexivity |].
  split; [unfold cli_main; by rewrite Hrows |].
  split; [by rewrite sort_values_perm |].
  split; [rewrite sort_values_perm; by repeat constructor |].
  apply allocation_of_zero_total. vm_compute. discriminate.
Qed.

End AllocationFacts.

Lemma report_divides_by_zero_total_offline :
  rearranges insertion_sort
  /\ exists rows alloc,
       cli_update_portfolio_prices offline (fun _ => "2024-01-02 10:00:00")
         create_portfolio = Holdings rows
       /\ total_value_sum rows == 0
       /\ cli_main insertion_sort offline (fun _ => "2024-01-02 10:00:00")
          = Ok alloc
       /\ length alloc = 8%nat
       /\ Forall (fun r => Percentage r = NaN) alloc
       /\ Forall (fun r => Percentage r = Fin 0)
            (calculate_sector_allocation insertion_sort (Holdings rows)).
Proof.
  split; [exact insertion_sort_contract |].
  exact (report_divides_by_zero_total insertion_sort insertion_sort_contract
           (fun _ => "2024-01-02 10:00:00")).
Defined.

(** ** Import of a file with company and sector columns *)

(** C3 on the code: whatever the table, the imported rows and the file
    system, the import of a file with full information leaves the data
    file as it was, leaves the tab itself where its table should be, and
    ends in an exception when the table is redrawn.  The merged table of
    the first statement is never saved. *)
Theorem full_info_import_is_lost (disk : Disk) (imported_df : list Row)
    (tab : Tab) :
  data_file (process_imported_data_full_info disk imported_df tab).1
  = data_file tab
  /\ portfolio_df (process_imported_data_full_info disk imported_df tab).1
     = match portfolio_df tab with
       | AttrSelf => portfolio_df tab
       | _ => AttrSelf
       end
  /\ (process_imported_data_full_info disk imported_df tab).2 = Raises.
Proof.
  destruct tab as [[| [|row rows] | |] file n]; repeat split.
Qed.

(** One holding on file, one row to import. *)
Example full_info_import_msft :
  let aapl := {| Symbol := "AAPL"; Company := "Apple";
                 Sector := Some "Technology"; Shares := 7;
                 Current_Price := 150; Total_Value := 1050;
                 Last_Updated := Some "2024-01-02 10:00:00" |} in
  let msft := {| Symbol := "MSFT"; Company := "Microsoft";
                 Sector := Some "Technology"; Shares := 2;
                 Current_Price := 400; Total_Value := 800;
                 Last_Updated := Some "2024-01-02 10:00:00" |} in
  process_imported_data_full_info DiskOk [msft]
    {| portfolio_df := AttrFrame [aapl]; data_file := Saved [aapl];
       table_rows := 1 |}
  = ({| portfolio_df := AttrSelf; data_file := Saved [aapl];
        table_rows := 0 |}, Raises).
Proof. reflexivity. Qed.

(** ** Further properties of the service *)

(** X1: the tab's allocation on a table whose total is not positive has
    the percentage 0 on every row; the total is never a divisor. *)
Theorem tab_allocation_of_zero_total (sort_values : SortValues)
    (rows : list Row) :
  rearranges sort_values ->
  total_value_sum rows <= 0 ->
  Forall (fun r => Percentage r = Fin 0)
         (calculate_sector_allocation sort_values (Holdings rows)).
Proof. intros Hcontract. by apply allocation_of_zero_total. Qed.

Lemma tab_allocation_of_zero_total_unpriced :
  rearranges insertion_sort
  /\ total_value_sum unpriced <= 0
  /\ Forall (fun r => Percentage r = Fin 0)
       (calculate_sector_allocation insertion_sort (Holdings unpriced))
  /\ map sum_Sector
       (calculate_sector_allocation insertion_sort (Holdings unpriced))
     = ["Industrials"; "Technology"].
Proof.
  assert (total_value_sum unpriced <= 0) as H.
  { vm_compute. discriminate. }
  split; [exact insertion_sort_contract |].
  split; [exact H |].
  split; [| reflexivity].
  exact (tab_allocation_of_zero_total insertion_sort unpriced
           insertion_sort_contract H).
Defined.

(** X2: the report's allocation on a table whose total is zero has no
    finite percentage at all. *)
Theorem report_allocation_of_zero_total (sort_values : SortValues)
    (rows : list Row) (out : list SectorRow) :
  rearranges sort_values ->
  total_value_sum rows == 0 ->
  cli_calculate_sector_allocation sort_values (Holdings rows) = Ok out ->
  Forall (fun r => forall q, Percentage r <> Fin q) out.
Proof. intros Hcontract. by apply report_allocation_not_finite. Qed.

Lemma report_allocation_of_zero_total_unpriced :
  rearranges insertion_sort
  /\ total_value_sum unpriced == 0
  /\ cli_calculate_sector_allocation insertion_sort (Holdings unpriced)
     = Ok (insertion_sort
             (with_percentage
                (fun v => xpercent (xdiv v (total_value_sum unpriced)))
                (groupby_sum unpriced)))
  /\ Forall (fun r => forall q, Percentage r <> Fin q)
       (insertion_sort
          (with_percentage
             (fun v => xpercent (xdiv v (total_value_sum unpriced)))
             (groupby_sum unpriced))).
Proof.
  assert (total_value_sum unpriced == 0) as H by reflexivity.
  split; [exact insertion_sort_contract |].
  split; [exact H |]. split; [reflexivity |].
  exact (report_allocation_of_zero_total insertion_sort unpriced _
           insertion_sort_contract H eq_refl).
Defined.

(** X3: a security is classified "Mutual Fund" only by the last letter
    of its symbol; the quote type of the provider never decides it. *)
Theorem mutual_fund_only_by_suffix (yf : Provider) (symbol : string) :
  get_security_type yf symbol = "Mutual Fund" ->
  PyStr.endswith symbol "X" = true.
Proof.
  unfold get_security_type.
  destruct (ticker_info (yf symbol)) as [info|]; [| discriminate].
  cbn [rbind].
  destruct (quote_type_lower info) as [qt|] eqn:Hqt; [| discriminate].
  cbn [rbind].
  rewrite (mutual_fund_test_never_matches info qt Hqt), orb_false_l.
  destruct (PyStr.contains "etf" qt || PyStr.endswith symbol "F");
    [discriminate |].
  destruct (PyStr.endswith symbol "X"); [done |].
  destruct (PyStr.contains "index" qt); discriminate.
Qed.

Lemma mutual_fund_only_by_suffix_vtsax :
  get_security_type vanguard_fund "VTSAX" = "Mutual Fund"
  /\ PyStr.endswith "VTSAX" "X" = true
  /\ get_security_type vanguard_fund "VTSMX.L" = "Stock".
Proof.
  split; [reflexivity |].
  split; [exact (mutual_fund_only_by_suffix vanguard_fund "VTSAX" eq_refl) |].
  reflexivity.
Defined.

(** ** Adding a position *)

(** X4: a position whose symbol is not in the table is appended: the
    table in memory has one row more, the rows before it are as they
    were, and the table widget shows the new table, whatever the file
    system does.  The data file holds the new table when the write
    succeeds; it keeps its content when it cannot be opened and is left
    cut short when the write fails, and the handler goes on all the
    same. *)
Theorem add_position_new_symbol (disk : Disk) (pd : Row) (clicked : Button)
    (rows : list Row) (file : File) (n : nat) :
  Forall (fun row => Symbol row <> Symbol pd) rows ->
  add_position disk true (Some pd) clicked
    {| portfolio_df := AttrFrame rows; data_file := file; table_rows := n |}
  = ({| portfolio_df := AttrFrame (rows ++ [pd])%list;
        data_file := match disk with
                     | DiskOk => Saved (rows ++ [pd])%list
                     | OpenFails => file
                     | WriteFails => Cut
                     end;
        table_rows := S (length rows) |}, Returned).
Proof.
  intros Hnew. rewrite add_position_frame. unfold merge_position, first_index.
  assert (list_find (fun row => Symbol row = Symbol pd) rows = None) as ->.
  { by apply list_find_None. }
  cbn [fmap option_fmap option_map].
  rewrite length_app. cbn [length]. rewrite Nat.add_1_r.
  by destruct disk.
Qed.

Lemma add_position_new_symbol_msft :
  let aapl := {| Symbol := "AAPL"; Company := "Apple";
                 Sector := Some "Technology"; Shares := 7;
                 Current_Price := 150; Total_Value := 1050;
                 Last_Updated := None |} in
  let msft := {| Symbol := "MSFT"; Company := "Microsoft";
                 Sector := Some "Technology"; Shares := 2;
                 Current_Price := 400; Total_Value := 800;
                 Last_Updated := None |} in
  add_position DiskOk true (Some msft) cancel_button
    {| portfolio_df := AttrFrame [aapl]; data_file := NoFile;
       table_rows := 1 |}
  = ({| portfolio_df := AttrFrame [aapl; msft];
        data_file := Saved [aapl; msft]; table_rows := 2 |}, Returned)
  /\ add_position OpenFails true (Some msft) cancel_button
       {| portfolio_df := AttrFrame [aapl]; data_file := Saved [aapl];
          table_rows := 1 |}
     = ({| portfolio_df := AttrFrame [aapl; msft];
           data_file := Saved [aapl]; table_rows := 2 |}, Returned).
Proof.
  intros aapl msft.
  assert (Forall (fun row => Symbol row <> Symbol msft) [aapl]) as Hnew.
  { repeat constructor. discriminate. }
  split.
  - exact (add_position_new_symbol DiskOk msft cancel_button [aapl] NoFile 1
             Hnew).
  - exact (add_position_new_symbol OpenFails msft cancel_button [aapl]
             (Saved [aapl]) 1 Hnew).
Defined.



(** ** Examples of a refresh *)

(** The first example of the specification: a table with 7 shares of
    AAPL and no price yet, a provider that quotes AAPL at 150: after the
    refresh the price is 150, the value 1050 and the time stamp is set. *)
Theorem refresh_example :
  exists row,
    update_portfolio_prices quoted_150 (fun _ => "2024-01-02 10:00:00")
      (Holdings [ {| Symbol := "AAPL"; Company := "Apple";
                     Sector := Some "Technology"; Shares := 7;
                     Current_Price := 0; Total_Value := 0;
                     Last_Updated := None |} ])
    = Holdings [row]
    /\ Symbol row = "AAPL"
    /\ Shares row == 7
    /\ Current_Price row == 150
    /\ Total_Value row == 1050
    /\ Last_Updated row = Some "2024-01-02 10:00:00".
Proof. eexists. repeat split. Qed.

(** One symbol of two is unknown to the provider: the refresh gives
    the known one its price, value and time stamp and returns the other
    row as it was, in the same place. *)
Theorem refresh_partial_failure (clock : nat -> string) :
  let aapl := {| Symbol := "AAPL"; Company := "Apple";
                 Sector := Some "Technology"; Shares := 7; Current_Price := 0;
                 Total_Value := 0; Last_Updated := None |} in
  let zzzz := {| Symbol := "ZZZZ"; Company := "Delisted";
                 Sector := Some "Unknown"; Shares := 3; Current_Price := 4;
                 Total_Value := 12;
                 Last_Updated := Some "2023-12-29 16:00:00" |} in
  get_price aapl_only "AAPL" = Some 150
  /\ get_price aapl_only "ZZZZ" = None
  /\ update_portfolio_prices aapl_only clock (Holdings [zzzz; aapl])
     = Holdings [zzzz; set_price aapl 150 (clock 1%nat)]
  /\ cli_update_portfolio_prices aapl_only clock (Holdings [zzzz; aapl])
     = Holdings [zzzz; set_price aapl 150 (clock 1%nat)].
Proof. repeat split. Qed.

(** ** Removing rows *)

Lemma drop_from_sublist (index : nat) (selected : gset nat)
    (rows : list Row) :
  drop_from index selected rows `sublist_of` rows.
Proof.
  revert index. induction rows as [|row rows IH]; intros index; simpl.
  - constructor.
  - destruct (decide (index ∈ selected)); [apply sublist_cons | apply sublist_skip];
      apply IH.
Qed.

Lemma drop_from_length (index : nat) (selected : gset nat)
    (rows : list Row) :
  (length (drop_from index selected rows)
   + length (filter (fun i => i ∈ selected) (seq index (length rows)))
   = length rows)%nat.
Proof.
  revert index. induction rows as [|row rows IH]; intros index; simpl.
  - reflexivity.
  - rewrite filter_cons. specialize (IH (S index)).
    destruct (decide (index ∈ selected)); simpl; lia.
Qed.

Lemma selected_in_range_length (selected : gset nat) (n : nat) :
  set_Forall (fun i => (i < n)%nat) selected ->
  length (filter (fun i => i ∈ selected) (seq 0 n)) = size selected.
Proof.
  intros Hrange. unfold size, set_size. simpl.
  apply Permutation_length, NoDup_Permutation.
  - apply NoDup_filter, NoDup_seq.
  - apply NoDup_elements.
  - intros i. rewrite list_elem_of_filter, elem_of_seq, elem_of_elements.
    split; [tauto |]. intros Hi. specialize (Hrange i Hi). simpl in Hrange.
    split; [done | lia].
Qed.

Lemma drop_from_kept (index : nat) (selected : gset nat) (rows : list Row)
    (i : nat) (row : Row) :
  rows !! i = Some row -> (index + i)%nat ∉ selected ->
  row ∈ drop_from index selected rows.
Proof.
  revert index i. induction rows as [|r rows IH]; intros index i; [done |].
  destruct i as [|i]; simpl.
  - intros [= ->] Hi. rewrite Nat.add_0_r in Hi.
    destruct (decide (index ∈ selected)); [done | apply list_elem_of_here].
  - intros Hrow Hi.
    assert (row ∈ drop_from (S index) selected rows) as Hin.
    { apply (IH (S index) i Hrow). by replace (S index + i)%nat with (index + S i)%nat by lia. }
    destruct (decide (index ∈ selected)); [done | by apply list_elem_of_further].
Qed.

Lemma drop_last (index : nat) (rows : list Row) (row : Row) :
  drop_from index {[ (index + length rows)%nat ]} (rows ++ [row])%list = rows.
Proof.
  revert index. induction rows as [|r rows IH]; intros index; simpl.
  - rewrite Nat.add_0_r.
    destruct (decide (index ∈ ({[index]} : gset nat))) as [|Hn]; [done |].
    exfalso. apply Hn. by apply elem_of_singleton.
  - destruct (decide (index ∈ ({[(index + S (length rows))%nat]} : gset nat)))
      as [Hin|_].
    + apply elem_of_singleton in Hin. lia.
    + f_equal. specialize (IH (S index)).
      by replace (S index + length rows)%nat
        with (index + S (length rows))%nat in IH by lia.
Qed.

Lemma sublist_valued (rows rows' : list Row) :
  rows' `sublist_of` rows -> Forall valued rows -> Forall valued rows'.
Proof.
  intros Hsub Hall. apply Forall_forall. intros row Hrow.
  apply (proj1 (Forall_forall _ _) Hall).
  by apply elem_of_sublist with rows'.
Qed.

Lemma selected_rows_spec (picked : gset nat) (tab : Tab) (i : nat) :
  i ∈ selected_rows picked tab <-> (i < table_rows tab)%nat /\ i ∈ picked.
Proof. unfold selected_rows. by rewrite elem_of_filter. Qed.

Lemma selected_rows_in_range (picked : gset nat) (tab : Tab) :
  set_Forall (fun i => (i < table_rows tab)%nat) (selected_rows picked tab).
Proof. intros i Hi. by apply selected_rows_spec in Hi as [Hi _]. Qed.

Lemma save_and_display_frame (disk : Disk) (rows : list Row) (tab : Tab) :
  save_and_display disk (AttrFrame rows) tab
  = ({| portfolio_df := AttrFrame rows;
        data_file := match disk with
                     | DiskOk => Saved rows
                     | OpenFails => data_file tab
                     | WriteFails => Cut
                     end;
        table_rows := length rows |}, Returned).
Proof. by destruct disk. Qed.

(** What [remove_selected] does when the widget shows the table of the
    tab. *)
Lemma remove_selected_shown (disk : Disk) (picked : gset nat)
    (rows : list Row) (tab : Tab) :
  portfolio_df tab = AttrFrame rows ->
  table_rows tab = length rows ->
  remove_selected disk picked true tab
  = if decide (selected_rows picked tab = ∅) then (tab, Returned)
    else save_and_display disk
           (AttrFrame (drop_from 0 (selected_rows picked tab) rows)) tab.
Proof.
  intros Hdf Hn. unfold remove_selected.
  destruct (decide (selected_rows picked tab = ∅)); [done |].
  rewrite Hdf. unfold df_drop.
  destruct (decide (set_Forall _ _)) as [|Hbad]; [done |].
  exfalso. apply Hbad. rewrite <- Hn. apply selected_rows_in_range.
Qed.

(** X6: removing the rows selected in the table widget keeps the other
    rows in their order and nothing else: the new table is a sublist of
    the old one, shorter by the number of selected rows, every row that
    was not picked is still there, rows whose value was price times
    shares still have it, and the widget shows the new table.  The data
    file holds the new table when the write succeeds; otherwise it keeps
    its content or is left cut short. *)
Theorem remove_selected_frame (disk : Disk) (picked : gset nat)
    (rows : list Row) (file : File) :
  selected_rows picked
    {| portfolio_df := AttrFrame rows; data_file := file;
       table_rows := length rows |} <> ∅ ->
  exists rows',
    remove_selected disk picked true
      {| portfolio_df := AttrFrame rows; data_file := file;
         table_rows := length rows |}
    = ({| portfolio_df := AttrFrame rows';
          data_file := match disk with
                       | DiskOk => Saved rows'
                       | OpenFails => file
                       | WriteFails => Cut
                       end;
          table_rows := length rows' |}, Returned)
    /\ rows' `sublist_of` rows
    /\ (length rows'
        + size (selected_rows picked
                  {| portfolio_df := AttrFrame rows; data_file := file;
                     table_rows := length rows |})
        = length rows)%nat
    /\ (forall i row, rows !! i = Some row -> i ∉ picked -> row ∈ rows')
    /\ (Forall valued rows -> Forall valued rows').
Proof.
  set (tab := {| portfolio_df := AttrFrame rows; data_file := file;
                 table_rows := length rows |}).
  intros Hne. exists (drop_from 0 (selected_rows picked tab) rows).
  split; [| split; [| split; [| split]]].
  - rewrite (remove_selected_shown disk picked rows tab eq_refl eq_refl).
    destruct (decide (selected_rows picked tab = ∅)); [done |].
    apply save_and_display_frame.
  - apply drop_from_sublist.
  - rewrite <- (selected_in_range_length (selected_rows picked tab)
                  (length rows) (selected_rows_in_range picked tab)).
    apply drop_from_length.
  - intros i row Hrow Hi.
    apply (drop_from_kept 0 (selected_rows picked tab) rows i); [done |].
    rewrite selected_rows_spec. tauto.
  - apply sublist_valued, drop_from_sublist.
Qed.

Lemma remove_selected_frame_first :
  let ba := {| Symbol := "BA"; Company := "Boeing";
               Sector := Some "Industrials"; Shares := 1;
               Current_Price := 300; Total_Value := 300;
               Last_Updated := None |} in
  exists rows',
    remove_selected OpenFails {[ 0%nat; 7%nat ]} true
      {| portfolio_df := AttrFrame [ba; two_shares];
         data_file := Saved [ba; two_shares]; table_rows := 2 |}
    = ({| portfolio_df := AttrFrame rows';
          data_file := Saved [ba; two_shares];
          table_rows := length rows' |}, Returned)
    /\ two_shares ∈ rows'.
Proof.
  intros ba.
  assert (selected_rows {[ 0%nat; 7%nat ]}
            {| portfolio_df := AttrFrame [ba; two_shares];
               data_file := Saved [ba; two_shares];
               table_rows := length [ba; two_shares] |} <> ∅) as Hne.
  { intros H. apply (not_elem_of_empty (C := gset nat) 0%nat).
    rewrite <- H. apply selected_rows_spec. simpl. split; [lia |].
    by apply elem_of_union_l, elem_of_singleton. }
  destruct (remove_selected_frame OpenFails {[ 0%nat; 7%nat ]}
              [ba; two_shares] (Saved [ba; two_shares]) Hne)
    as [rows' [Hrun [_ [_ [Hkept _]]]]].
  exists rows'. split; [exact Hrun |].
  apply (Hkept 1%nat two_shares eq_refl).
  intros Hin. apply elem_of_union in Hin as [Hin | Hin];
    apply elem_of_singleton in Hin; discriminate Hin.
Defined.

Lemma drawn_update_display (tab : Tab) :
  drawn tab -> drawn (update_display tab).1.
Proof. by destruct tab as [[|rows| |] file n]. Qed.

Lemma drawn_save_and_display (disk : Disk) (df : Attr) (tab : Tab) :
  df <> AttrNone -> drawn (save_and_display disk df tab).1.
Proof. by destruct df. Qed.

(** Without a selection or without confirmation nothing happens. *)
Lemma remove_selected_idle (disk : Disk) (picked : gset nat)
    (confirm : bool) (tab : Tab) :
  (selected_rows picked tab = ∅ \/ confirm = false ->
   remove_selected disk picked confirm tab = (tab, Returned))
  /\ (table_rows tab = 0%nat -> selected_rows picked tab = ∅).
Proof.
  split.
  - intros [He | ->]; unfold remove_selected.
    + rewrite He. by destruct (decide _).
    + by destruct (decide _).
  - intros Hz. apply leibniz_equiv, elem_of_equiv_empty. intros i Hi.
    apply selected_rows_spec in Hi as [Hi _]. lia.
Qed.

(** X7: [remove_selected] cannot raise once the table widget has been
    drawn from the table of the tab: the selection is read from the
    widget, so every selected row is a row of the table and [drop] finds
    its label; where the tab holds no table the widget has no row and the
    handler returns at once.  The widget is drawn again when the handler
    ends. *)
Theorem remove_selected_returns (disk : Disk) (picked : gset nat)
    (confirm : bool) (tab : Tab) :
  drawn tab ->
  (remove_selected disk picked confirm tab).2 = Returned
  /\ drawn (remove_selected disk picked confirm tab).1
  /\ (portfolio_df tab = AttrNone \/ portfolio_df tab = AttrNoColumns
      \/ portfolio_df tab = AttrSelf \/ confirm = false ->
      remove_selected disk picked confirm tab = (tab, Returned)).
Proof.
  intros Hd.
  destruct (remove_selected_idle disk picked confirm tab) as [Hidle Hnone].
  assert (remove_selected disk picked confirm tab = (tab, Returned) ->
          (remove_selected disk picked confirm tab).2 = Returned
          /\ drawn (remove_selected disk picked confirm tab).1) as Hsame.
  { by intros ->. }
  pose proof Hd as Hd'. unfold drawn in Hd'.
  destruct (portfolio_df tab) as [|rows| |] eqn:Hdf.
  - assert (remove_selected disk picked confirm tab = (tab, Returned)) as H.
    { apply Hidle. left. by apply Hnone. }
    destruct (Hsame H). by repeat split.
  - assert ((remove_selected disk picked confirm tab).2 = Returned
            /\ drawn (remove_selected disk picked confirm tab).1) as [H1 H2].
    { destruct confirm; [| apply Hsame, Hidle; by right].
      rewrite (remove_selected_shown disk picked rows tab Hdf Hd').
      destruct (decide _) as [He|_]; [done |].
      split; [by rewrite save_and_display_frame |].
      by apply drawn_save_and_display. }
    split; [done |]. split; [done |].
    intros [H | [H | [H | ->]]]; [done.. |]. apply Hidle. by right.
  - assert (remove_selected disk picked confirm tab = (tab, Returned)) as H.
    { apply Hidle. left. by apply Hnone. }
    destruct (Hsame H). by repeat split.
  - assert (remove_selected disk picked confirm tab = (tab, Returned)) as H.
    { apply Hidle. left. by apply Hnone. }
    destruct (Hsame H). by repeat split.
Qed.

Lemma remove_selected_returns_after_import :
  let tab := {| portfolio_df := AttrSelf; data_file := Saved [two_shares];
                table_rows := 0 |} in
  drawn tab
  /\ remove_selected DiskOk {[ 0%nat ]} true tab = (tab, Returned).
Proof.
  intros tab. assert (drawn tab) as Hd by reflexivity.
  split; [exact Hd |].
  destruct (remove_selected_returns DiskOk {[ 0%nat ]} true tab Hd)
    as [_ [_ H]].
  apply H. by right; right; left.
Defined.

(** X8: adding a position with a new symbol and then removing the last
    row gives back the table as it was, in the tab and in the widget.
    The data file holds that table when the second write succeeds; when
    it cannot be opened the file is what the first write left, and when
    the second write fails the file is cut short. *)
Theorem add_then_remove (first second : Disk) (pd : Row) (clicked : Button)
    (rows : list Row) (file : File) (n : nat) :
  Forall (fun row => Symbol row <> Symbol pd) rows ->
  remove_selected second {[ length rows ]} true
    (add_position first true (Some pd) clicked
       {| portfolio_df := AttrFrame rows; data_file := file;
          table_rows := n |}).1
  = ({| portfolio_df := AttrFrame rows;
        data_file := match second with
                     | DiskOk => Saved rows
                     | OpenFails =>
                         match first with
                         | DiskOk => Saved (rows ++ [pd])%list
                         | OpenFails => file
                         | WriteFails => Cut
                         end
                     | WriteFails => Cut
                     end;
        table_rows := length rows |}, Returned).
Proof.
  intros Hnew. rewrite add_position_frame. unfold merge_position, first_index.
  assert (list_find (fun row => Symbol row = Symbol pd) rows = None) as ->.
  { by apply list_find_None. }
  cbn [fmap option_fmap option_map fst].
  assert (length (rows ++ [pd])%list = S (length rows)) as Hlen.
  { rewrite length_app. simpl. lia. }
  set (tab := {| portfolio_df := AttrFrame (rows ++ [pd])%list;
                 data_file := _; table_rows := _ |}).
  assert (selected_rows {[ length rows ]} tab = {[ length rows ]}) as Hsel.
  { apply leibniz_equiv. intros i. rewrite selected_rows_spec.
    rewrite elem_of_singleton. unfold tab. cbn [table_rows]. rewrite Hlen.
    split; [tauto |]. intros ->. lia. }
  rewrite (remove_selected_shown second {[ length rows ]}
             (rows ++ [pd])%list tab eq_refl eq_refl).
  rewrite Hsel.
  destruct (decide (({[ length rows ]} : gset nat) = ∅)) as [He|_].
  { exfalso. apply (non_empty_singleton_L (C := gset nat) (length rows) He). }
  pose proof (drop_last 0 rows pd) as Hdrop. simpl in Hdrop.
  rewrite Hdrop, save_and_display_frame. unfold tab. cbn [data_file].
  by destruct first, second.
Qed.

Lemma add_then_remove_msft :
  let aapl := {| Symbol := "AAPL"; Company := "Apple";
                 Sector := Some "Technology"; Shares := 7;
                 Current_Price := 150; Total_Value := 1050;
                 Last_Updated := None |} in
  let msft := {| Symbol := "MSFT"; Company := "Microsoft";
                 Sector := Some "Technology"; Shares := 2;
                 Current_Price := 400; Total_Value := 800;
                 Last_Updated := None |} in
  Forall (fun row => Symbol row <> Symbol msft) [aapl]
  /\ remove_selected DiskOk {[ 1%nat ]} true
       (add_position WriteFails true (Some msft) add_button
          {| portfolio_df := AttrFrame [aapl]; data_file := NoFile;
             table_rows := 1 |}).1
     = ({| portfolio_df := AttrFrame [aapl]; data_file := Saved [aapl];
           table_rows := 1 |}, Returned).
Proof.
  intros aapl msft.
  assert (Forall (fun row => Symbol row <> Symbol msft) [aapl]) as Hnew.
  { repeat constructor. discriminate. }
  split; [exact Hnew |].
  exact (add_then_remove WriteFails DiskOk msft add_button [aapl] NoFile 1
           Hnew).
Defined.

(** ** The table, the widget and the data file in a session *)

Lemma shown_drawn (tab : Tab) : shown tab -> drawn tab.
Proof. intros [rows [Hdf Hn]]. unfold drawn. by rewrite Hdf. Qed.

















(** ** After the import of a file with company and sector columns *)

Lemma full_info_import_leaves_self (disk : Disk) (imported_df : list Row)
    (tab : Tab) :
  drawn tab ->
  (process_imported_data_full_info disk imported_df tab).1
  = {| portfolio_df := AttrSelf; data_file := data_file tab;
       table_rows := 0 |}.
Proof.
  destruct tab as [[| [|row rows] | |] file n]; try done.
  unfold drawn. simpl. by intros ->.
Qed.

(** X10: after an import of a file with company and sector columns the
    tab is unusable until the application is started again.  The tab
    holds itself in place of its table and the widget is empty; adding,
    refreshing, saving and exporting raise and change nothing; removing
    returns at once, there being no row to select.  Loading the table
    again, as a new start of the application does, reads the data file,
    which is as it was before the import. *)
Theorem import_breaks_the_tab (disk : Disk) (imported_df : list Row)
    (tab : Tab) :
  drawn tab ->
  exists broken,
    (process_imported_data_full_info disk imported_df tab).1 = broken
    /\ broken = {| portfolio_df := AttrSelf; data_file := data_file tab;
                   table_rows := 0 |}
    /\ (forall d pd clicked,
          add_position d true (Some pd) clicked broken = (broken, Raises))
    /\ (forall d yf clock,
          refresh_portfolio d yf clock broken = (broken, Raises))
    /\ (forall d picked confirm,
          remove_selected d picked confirm broken = (broken, Returned))
    /\ (forall d, app_save_portfolio d broken = (broken, Raises))
    /\ (forall d file_path,
          export_portfolio d file_path broken = (None, Raises))
    /\ (forall readable,
          portfolio_df (tab_load_portfolio readable broken).1
          = load_portfolio readable (data_file tab)
          /\ data_file (tab_load_portfolio readable broken).1
             = data_file tab
          /\ (tab_load_portfolio readable broken).2 = Returned).
Proof.
  intros Hd. eexists. split; [by apply full_info_import_leaves_self |].
  split; [reflexivity |].
  set (broken := {| portfolio_df := AttrSelf; data_file := data_file tab;
                    table_rows := 0 |}).
  split; [done |]. split; [done |].
  split.
  { intros d picked confirm.
    destruct (remove_selected_idle d picked confirm broken) as [H Hz].
    apply H. left. by apply Hz. }
  split; [done |]. split; [done |].
  intros readable. unfold tab_load_portfolio. cbn [data_file].
  destruct (data_file tab) as [|[|row rows]|]; by destruct readable.
Qed.

Lemma import_breaks_the_tab_msft :
  let tab := {| portfolio_df := AttrFrame [two_shares];
                data_file := Saved [two_shares]; table_rows := 1 |} in
  drawn tab
  /\ (process_imported_data_full_info DiskOk [two_shares] tab).1
     = {| portfolio_df := AttrSelf; data_file := Saved [two_shares];
          table_rows := 0 |}
  /\ portfolio_df
       (tab_load_portfolio true
          {| portfolio_df := AttrSelf; data_file := Saved [two_shares];
             table_rows := 0 |}).1
     = AttrFrame [two_shares].
Proof.
  intros tab. assert (drawn tab) as Hd by reflexivity.
  split; [exact Hd |].
  destruct (import_breaks_the_tab DiskOk [two_shares] tab Hd)
    as (broken & Hrun & -> & _ & _ & _ & _ & _ & Hload).
  split; [exact Hrun |].
  exact (proj1 (Hload true)).
Defined.

(** ** A saved empty table *)




(** ** Timed refresh *)

(** X11: the timed refresh runs on the days Monday to Friday from 9:00
    to 15:59, the minute is never looked at: the second half of the test,
    which reads it, only holds when the first half already does.  At any
    other time the tab and the data file are left alone. *)
Theorem auto_refresh_hours (disk : Disk) (yf : Provider)
    (clock : nat -> string) (weekday hour minute : nat) (tab : Tab) :
  (in_market_hours weekday hour minute = true
   <-> (weekday <= 4 /\ 9 <= hour /\ hour < 16)%nat)
  /\ check_auto_refresh disk yf clock weekday hour minute tab
     = check_auto_refresh disk yf clock weekday hour 0 tab
  /\ (in_market_hours weekday hour minute = false ->
      check_auto_refresh disk yf clock weekday hour minute tab = (tab, Returned)).
Proof.
  assert (forall m, in_market_hours weekday hour m
                    = (weekday <=? 4)%nat
                      && ((9 <=? hour)%nat && (hour <? 16)%nat)) as Hm.
  { intros m. unfold in_market_hours.
    destruct (weekday <=? 4)%nat; simpl; [| done].
    destruct (hour =? 9)%nat eqn:He.
    - apply Nat.eqb_eq in He. by subst hour.
    - by rewrite andb_false_l, orb_false_r. }
  split; [| split].
  - rewrite Hm, !andb_true_iff, !Nat.leb_le, Nat.ltb_lt. tauto.
  - unfold check_auto_refresh. by rewrite (Hm minute), (Hm 0%nat).
  - intros H. unfold check_auto_refresh. by rewrite H.
Qed.

(** ** Export *)

Lemma lower_append (a b : string) :
  PyStr.lower (a +:+ b) = PyStr.lower a +:+ PyStr.lower b.
Proof.
  induction a as [|c a IH]; [done |].
  rewrite PyStrFacts.append_cons. simpl.
  by rewrite IH, PyStrFacts.append_cons.
Qed.

Lemma endswith_append (a t : string) : PyStr.endswith (a +:+ t) t = true.
Proof.
  induction a as [|c a IH].
  - rewrite PyStrFacts.append_nil_l. destruct t; simpl.
    + done.
    + by rewrite Ascii.eqb_refl, String.eqb_refl.
  - rewrite PyStrFacts.append_cons.
    change (PyStr.endswith (String c (a +:+ t)) t)
      with (String.eqb (String c (a +:+ t)) t || PyStr.endswith (a +:+ t) t).
    by rewrite IH, orb_true_r.
Qed.

(** X12: an export of a table with rows to a chosen file names a file
    that ends in ".csv" whatever the case of the letters: the name chosen
    when it ends so, the name with ".csv" added when it does not.  When
    the write succeeds that file holds the whole table, in its order;
    when the file cannot be opened nothing is written, and when the write
    fails the file is left cut short.  The handler returns in all three
    cases. *)
Theorem export_portfolio_file (disk : Disk) (file_path : string) (row : Row)
    (rows : list Row) (file : File) (n : nat) :
  file_path <> "" ->
  exists written,
    export_portfolio disk file_path
      {| portfolio_df := AttrFrame (row :: rows); data_file := file;
         table_rows := n |}
    = (match disk with
       | DiskOk => Some (written, Saved (row :: rows))
       | OpenFails => None
       | WriteFails => Some (written, Cut)
       end, Returned)
    /\ PyStr.endswith (PyStr.lower written) ".csv" = true
    /\ (PyStr.endswith (PyStr.lower file_path) ".csv" = true ->
        written = file_path)
    /\ (PyStr.endswith (PyStr.lower file_path) ".csv" = false ->
        written = file_path +:+ ".csv").
Proof.
  intros Hpath. unfold export_portfolio. cbn [portfolio_df].
  assert (String.eqb file_path "" = false) as ->.
  { by apply String.eqb_neq. }
  destruct (PyStr.endswith (PyStr.lower file_path) ".csv") eqn:E; simpl.
  - exists file_path. split; [by destruct disk | by repeat split].
  - exists (file_path +:+ ".csv").
    split; [by destruct disk |]. repeat split; [| done].
    rewrite lower_append. apply endswith_append.
Qed.

Lemma export_portfolio_file_holdings :
  "holdings.CSV" <> ""
  /\ "holdings" <> ""
  /\ (exists written,
        export_portfolio DiskOk "holdings.CSV"
          {| portfolio_df := AttrFrame [two_shares]; data_file := NoFile;
             table_rows := 1 |}
        = (Some (written, Saved [two_shares]), Returned)
        /\ written = "holdings.CSV")
  /\ (exists written,
        export_portfolio WriteFails "holdings"
          {| portfolio_df := AttrFrame [two_shares]; data_file := NoFile;
             table_rows := 1 |}
        = (Some (written, Cut), Returned)
        /\ written = "holdings.csv").
Proof.
  assert ("holdings.CSV" <> "") as H1 by discriminate.
  assert ("holdings" <> "") as H2 by discriminate.
  split; [exact H1 |]. split; [exact H2 |]. split.
  - destruct (export_portfolio_file DiskOk "holdings.CSV" two_shares []
                NoFile 1 H1) as [written [Hrun [_ [Hsame _]]]].
    exists written. split; [exact Hrun | by apply Hsame].
  - destruct (export_portfolio_file WriteFails "holdings" two_shares []
                NoFile 1 H2) as [written [Hrun [_ [_ Hadd]]]].
    exists written. split; [exact Hrun | by apply Hadd].
Defined.

(** ** More on the refresh *)

Lemma refresh_row_twice (yf : Provider) (clock : nat -> string)
    (index : nat) (row : Row) :
  refresh_row yf clock index (refresh_row yf clock index row)
  = refresh_row yf clock index row.
Proof.
  destruct (truthy (get_price yf (Symbol row))) eqn:Ht.
  - destruct (get_price yf (Symbol row)) as [p|] eqn:Hp; [| done].
    rewrite (refresh_row_succeeded yf clock index row p Hp Ht).
    by rewrite (refresh_row_succeeded yf clock index
                  (set_price row p (clock index)) p Hp Ht).
  - rewrite (refresh_row_failed yf clock index row Ht).
    by apply refresh_row_failed.
Qed.

Lemma imap_refresh_twice (yf : Provider) (clock : nat -> string)
    (rows : list Row) :
  imap (refresh_row yf clock) (imap (refresh_row yf clock) rows)
  = imap (refresh_row yf clock) rows.
Proof.
  apply list_eq. intros i. rewrite !list_lookup_imap.
  destruct (rows !! i) as [row|]; simpl; [| done].
  by rewrite refresh_row_twice.
Qed.

(** X13: with the same answers of the provider and the same clock, a
    second refresh right after the first changes nothing: the table after
    two refreshes is the table after one, for the tab's function and for
    the report's, with or without the valuation columns at the start. *)
Theorem refresh_twice (yf : Provider) (clock : nat -> string)
    (df : DataFrame) :
  update_portfolio_prices yf clock (update_portfolio_prices yf clock df)
  = update_portfolio_prices yf clock df
  /\ cli_update_portfolio_prices yf clock
       (cli_update_portfolio_prices yf clock df)
     = cli_update_portfolio_prices yf clock df.
Proof.
  split.
  - destruct df as [rows|[|p ps]].
    + by rewrite !update_holdings, imap_refresh_twice.
    + reflexivity.
    + unfold update_portfolio_prices at 2. cbn [df_empty].
      by rewrite update_holdings, imap_refresh_twice.
  - unfold cli_update_portfolio_prices. cbn [add_missing_columns].
    by rewrite imap_refresh_twice.
Qed.

(** X14: a table without valuation columns gets them in the refresh.
    The report's function returns as many rows as there were positions,
    each with the symbol, company, sector and shares of its position, all
    with a value equal to price times shares; a position whose lookup
    gives no usable price has the price 0, the value 0 and no time stamp.
    The tab's function does the same, except that it returns an empty
    table as it is, without the columns. *)
Theorem refresh_bare_table (yf : Provider) (clock : nat -> string)
    (ps : list Position) :
  exists rows',
    cli_update_portfolio_prices yf clock (Positions ps) = Holdings rows'
    /\ update_portfolio_prices yf clock (Positions ps)
       = (if df_empty (Positions ps) then Positions ps else Holdings rows')
    /\ length rows' = length ps
    /\ Forall valued rows'
    /\ forall (i : nat) (p : Position),
         ps !! i = Some p ->
         exists row',
           rows' !! i = Some row'
           /\ Symbol row' = pos_Symbol p
           /\ Company row' = pos_Company p
           /\ Sector row' = Some (pos_Sector p)
           /\ Shares row' = pos_Shares p
           /\ (truthy (get_price yf (pos_Symbol p)) = false ->
               Current_Price row' = 0 /\ Total_Value row' = 0
               /\ Last_Updated row' = None).
Proof.
  set (bare := fun p => {| Symbol := pos_Symbol p; Company := pos_Company p;
                           Sector := Some (pos_Sector p); Shares := pos_Shares p;
                           Current_Price := 0; Total_Value := 0;
                           Last_Updated := None |}).
  assert (add_missing_columns (Positions ps) = bare <$> ps) as Hbare.
  { reflexivity. }
  exists (imap (refresh_row yf clock) (add_missing_columns (Positions ps))).
  split; [done |]. split; [by destruct ps |].
  rewrite Hbare.
  split; [by rewrite length_imap, length_fmap |].
  split.
  - apply Forall_lookup. intros i row' Hi.
    rewrite list_lookup_imap, list_lookup_fmap in Hi.
    destruct (ps !! i) as [p|]; simplify_eq/=.
    destruct (refresh_row_kept_or_valued yf clock i (bare p)) as [-> | H];
      [| done].
    unfold valued. simpl. reflexivity.
  - intros i p Hp. rewrite list_lookup_imap, list_lookup_fmap, Hp. simpl.
    eexists. split; [reflexivity |].
    rewrite refresh_row_symbol.
    unfold refresh_row. simpl.
    destruct (truthy (get_price yf (pos_Symbol p))) eqn:Ht.
    + destruct (get_price yf (pos_Symbol p)); by repeat split.
    + by repeat split.
Qed.

(** ** More on the price lookup *)

Lemma truthy_some (price : option Q) :
  truthy price = true -> exists p, price = Some p /\ ~ p == 0.
Proof.
  destruct price as [p|]; [| done]. intros Ht. exists p. split; [done |].
  intros Hz. by rewrite (truthy_zero p Hz) in Ht.
Qed.

(** X15: [get_price] returns a price of 0 only from the history: when
    its answer is a price equal to 0, the history of the day is not empty
    and that price is its last close.  A 0 in a field of the info is
    never returned. *)
Theorem zero_price_comes_from_history (yf : Provider) (symbol : string)
    (p : Q) :
  get_price yf symbol = Some p ->
  p == 0 ->
  exists hist,
    ticker_history (yf symbol) = Ok hist /\ last hist = Some p.
Proof.
  intros Hp Hz. unfold get_price, price_from_current in Hp.
  assert (forall price : option Q,
            truthy price = true -> price <> Some p) as Hnot.
  { intros price Ht ->. by rewrite (truthy_zero p Hz) in Ht. }
  destruct (ticker_info (yf symbol)) as [info|] eqn:Hinfo; [| done].
  cbn [rbind] in Hp.
  destruct (truthy (dict_get (currentPrice info))) eqn:H1.
  { by apply Hnot in H1. }
  unfold price_from_regular_market in Hp. rewrite Hinfo in Hp.
  cbn [rbind] in Hp.
  destruct (truthy (dict_get (regularMarketPrice info))) eqn:H2.
  { by apply Hnot in H2. }
  unfold price_from_history in Hp.
  destruct (ticker_history (yf symbol)) as [hist|]; [| done].
  cbn [rbind] in Hp. destruct hist as [|h hist].
  - unfold price_from_previous_close in Hp. rewrite Hinfo in Hp.
    cbn [rbind] in Hp.
    destruct (truthy (dict_get (previousClose info))) eqn:H3; [| done].
    by apply Hnot in H3.
  - exists (h :: hist). split; [done |]. by simplify_eq/=.
Qed.

Lemma zero_price_comes_from_history_halted :
  get_price (fun _ => halted) "HLTD" = Some 0
  /\ 0 == 0
  /\ exists hist,
       ticker_history halted = Ok hist /\ last hist = Some 0.
Proof.
  split; [reflexivity |]. split; [reflexivity |].
  exact (zero_price_comes_from_history (fun _ => halted) "HLTD" 0
           eq_refl (Qeq_refl 0)).
Defined.

(** X16: when neither [currentPrice] nor [regularMarketPrice] is usable,
    an exception in the history request ends the lookup with no price,
    although the previous close is never asked; with an empty history the
    previous close is the answer when it is not 0 or missing. *)
Theorem history_failure_hides_previous_close (yf : Provider)
    (symbol : string) (info : Info) :
  ticker_info (yf symbol) = Ok info ->
  truthy (dict_get (currentPrice info)) = false ->
  truthy (dict_get (regularMarketPrice info)) = false ->
  (ticker_history (yf symbol) = Raised -> get_price yf symbol = None)
  /\ (ticker_history (yf symbol) = Ok [] ->
      get_price yf symbol
      = if truthy (dict_get (previousClose info))
        then dict_get (previousClose info) else None).
Proof.
  intros Hinfo H1 H2.
  unfold get_price, price_from_current, price_from_regular_market,
    price_from_history, price_from_previous_close.
  rewrite Hinfo. cbn [rbind]. rewrite H1, H2.
  split; intros ->; cbn [rbind try_except]; [done |].
  by destruct (truthy (dict_get (previousClose info))).
Qed.

Lemma history_failure_hides_previous_close_example :
  let info := {| quoteType := Present "EQUITY"; shortName := Absent;
                 sector := Absent; currentPrice := Absent;
                 regularMarketPrice := Present 0;
                 previousClose := Present 5 |} in
  let failing : Provider :=
    fun _ => {| ticker_info := Ok info; ticker_history := Raised |} in
  let empty : Provider :=
    fun _ => {| ticker_info := Ok info; ticker_history := Ok [] |} in
  get_price failing "AAPL" = None /\ get_price empty "AAPL" = Some 5.
Proof.
  intros info failing empty. split.
  - apply (history_failure_hides_previous_close failing "AAPL" info
             eq_refl eq_refl eq_refl). reflexivity.
  - destruct (history_failure_hides_previous_close empty "AAPL" info
                eq_refl eq_refl eq_refl) as [_ H].
    exact (H eq_refl).
Defined.

(** ** More on the classification *)

Lemma security_type_range (yf : Provider) (symbol : string) :
  get_security_type yf symbol ∈ ["ETF"; "Mutual Fund"; "Index"; "Stock"].
Proof.
  unfold get_security_type.
  destruct (ticker_info (yf symbol)) as [info|]; cbn [rbind try_except];
    [| set_solver].
  destruct (quote_type_lower info) as [qt|]; cbn [rbind try_except];
    [| set_solver].
  destruct (PyStr.contains "etf" qt || PyStr.endswith symbol "F");
    [set_solver |].
  destruct (PyStr.contains "mutualFund" qt || PyStr.endswith symbol "X");
    [set_solver |].
  destruct (PyStr.contains "index" qt); set_solver.
Qed.

Lemma etf_classification_range (yf : Provider) (symbol : string) :
  get_etf_sector_classification yf symbol
  ∈ ["Bond ETF"; "Technology ETF"; "Index ETF"; "Healthcare ETF";
     "Energy ETF"; "Financial ETF"; "Dividend ETF"; "Growth ETF";
     "Value ETF"; "Crypto ETF"; "ETF"].
Proof.
  unfold get_etf_sector_classification.
  destruct (ticker_info (yf symbol)) as [info|]; cbn [rbind try_except];
    [| set_solver].
  destruct (py_lower _) as [name|]; cbn [rbind try_except];
    [| set_solver].
  repeat (destruct (PyStr.any_in _ name); [set_solver |]).
  set_solver.
Qed.

(** X17: the two classifications have finitely many answers:
    [get_security_type] returns one of the four kinds and
    [get_etf_sector_classification] one of eleven labels, whatever the
    symbol and whatever the provider does. *)
Theorem classification_ranges (yf : Provider) (symbol : string) :
  get_security_type yf symbol ∈ ["ETF"; "Mutual Fund"; "Index"; "Stock"]
  /\ get_etf_sector_classification yf symbol
     ∈ ["Bond ETF"; "Technology ETF"; "Index ETF"; "Healthcare ETF";
        "Energy ETF"; "Financial ETF"; "Dividend ETF"; "Growth ETF";
        "Value ETF"; "Crypto ETF"; "ETF"].
Proof.
  split; [apply security_type_range | apply etf_classification_range].
Qed.

(** ** What the allocation adds up to *)

Lemma Qsum_perm (l l' : list Q) : l ≡ₚ l' -> Qsum l == Qsum l'.
Proof.
  induction 1 as [|x l l' _ IH|x y l|l l' l'' _ IH1 _ IH2]; simpl.
  - reflexivity.
  - by rewrite IH.
  - ring.
  - by rewrite IH1.
Qed.

Lemma Qsum_cons (x : Q) (l : list Q) : Qsum (x :: l) = x + Qsum l.
Proof. reflexivity. Qed.

Lemma group_add_sum (key : string) (v : Q) (groups : list (string * Q)) :
  Qsum (snd <$> group_add key v groups) == Qsum (snd <$> groups) + v.
Proof.
  induction groups as [|[k s] rest IH].
  - change (v + 0 == 0 + v). ring.
  - cbn [group_add]. destruct (key ?= k)%string;
      rewrite ?fmap_cons, ?Qsum_cons; cbn [snd]; [ring | ring |].
    rewrite IH. ring.
Qed.

Lemma group_add_keys (key : string) (v : Q) (groups : list (string * Q))
    (s : string) :
  s ∈ fst <$> group_add key v groups <-> s = key \/ s ∈ fst <$> groups.
Proof.
  induction groups as [|[k q] rest IH]; simpl.
  - rewrite list_elem_of_singleton, elem_of_nil. tauto.
  - destruct (key ?= k)%string eqn:E; simpl.
    + apply String.compare_eq_iff in E as ->.
      rewrite !elem_of_cons. tauto.
    + rewrite !elem_of_cons. simpl. tauto.
    + rewrite !elem_of_cons, IH. tauto.
Qed.

Lemma total_value_sum_Qsum (rows : list Row) :
  total_value_sum rows == Qsum (Total_Value <$> rows).
Proof.
  unfold total_value_sum.
  assert (forall acc,
            fold_left (fun acc row => acc + Total_Value row) rows acc
            == acc + Qsum (Total_Value <$> rows)) as H.
  { induction rows as [|row rows IH]; intros acc.
    - change (acc == acc + 0). ring.
    - cbn [fold_left]. rewrite fmap_cons, Qsum_cons, IH. ring. }
  rewrite H. ring.
Qed.

Lemma with_sector_cons (row : Row) (rows : list Row) :
  with_sector (row :: rows)
  = match Sector row with
    | Some _ => row :: with_sector rows
    | None => with_sector rows
    end.
Proof.
  unfold with_sector. rewrite filter_cons.
  destruct (Sector row) as [s|] eqn:E.
  - destruct (decide (is_Some (Some s))) as [_|Hn]; [done |].
    exfalso. by apply Hn.
  - destruct (decide (is_Some None)) as [Hs|_]; [| done].
    by apply is_Some_None in Hs.
Qed.

Lemma with_sector_all (rows : list Row) :
  Forall (fun row => is_Some (Sector row)) rows -> with_sector rows = rows.
Proof.
  induction 1 as [|row rows [s Hs] _ IH]; [done |].
  by rewrite with_sector_cons, Hs, IH.
Qed.

(** The sums of the groups add up to the value of the rows that have a
    sector. *)
Lemma groupby_sum_total (rows : list Row) :
  Qsum (snd <$> groupby_sum rows) == total_value_sum (with_sector rows).
Proof.
  rewrite total_value_sum_Qsum. unfold groupby_sum.
  assert (forall groups,
            Qsum (snd <$> fold_left group_row rows groups)
            == Qsum (snd <$> groups)
               + Qsum (Total_Value <$> with_sector rows)) as H.
  { induction rows as [|row rows IH]; intros groups.
    - change (Qsum (snd <$> groups) == Qsum (snd <$> groups) + 0). ring.
    - cbn [fold_left]. rewrite IH, with_sector_cons. unfold group_row.
      destruct (Sector row) as [s|]; [| reflexivity].
      rewrite fmap_cons, Qsum_cons, group_add_sum. ring. }
  rewrite H. change (0 + Qsum (Total_Value <$> with_sector rows)
                     == Qsum (Total_Value <$> with_sector rows)). ring.
Qed.

(** The sectors of the summary are the sectors that occur in the table. *)
Lemma groupby_sum_keys (rows : list Row) (s : string) :
  s ∈ fst <$> groupby_sum rows <-> Some s ∈ Sector <$> rows.
Proof.
  unfold groupby_sum.
  assert (forall groups,
            s ∈ fst <$> fold_left group_row rows groups
            <-> s ∈ fst <$> groups \/ Some s ∈ Sector <$> rows) as H.
  { induction rows as [|row rows IH]; intros groups.
    - cbn [fold_left]. rewrite fmap_nil, elem_of_nil. tauto.
    - cbn [fold_left]. rewrite IH, fmap_cons, elem_of_cons.
      unfold group_row. destruct (Sector row) as [key|].
      + rewrite group_add_keys.
        split; [intros [[-> | H] | H] | intros [H | [[= ->] | H]]]; tauto.
      + split; [tauto | intros [H | [H | H]]]; [tauto | done | tauto]. }
  rewrite H. rewrite fmap_nil, elem_of_nil. tauto.
Qed.

Lemma sector_lt_irrefl (s : string) : ~ sector_lt s s.
Proof.
  rewrite sector_lt_compare. intros H.
  pose proof (String.compare_antisym s s) as Ha.
  rewrite H in Ha. discriminate Ha.
Qed.

Lemma groupby_sum_keys_NoDup (rows : list Row) :
  NoDup (fst <$> groupby_sum rows).
Proof.
  pose proof (groupby_sum_sorted rows) as Hs.
  induction Hs as [|g groups Hs IH Hg]; simpl; constructor; [| done].
  intros Hin. apply list_elem_of_fmap in Hin as [h [Heq Hh]].
  pose proof (proj1 (Forall_forall _ _) Hg h Hh) as Hlt.
  unfold key_lt in Hlt. rewrite <- Heq in Hlt.
  by apply sector_lt_irrefl in Hlt.
Qed.

Lemma with_percentage_values (pct : Q -> xnum)
    (groups : list (string * Q)) :
  sum_Total_Value <$> with_percentage pct groups = snd <$> groups.
Proof.
  induction groups as [|[s v] rest IH]; simpl; [done |]. by f_equal.
Qed.

Lemma with_percentage_sectors (pct : Q -> xnum)
    (groups : list (string * Q)) :
  sum_Sector <$> with_percentage pct groups = fst <$> groups.
Proof.
  induction groups as [|[s v] rest IH]; simpl; [done |]. by f_equal.
Qed.

Lemma with_percentage_percentages (pct : Q -> xnum)
    (groups : list (string * Q)) :
  Percentage <$> with_percentage pct groups = pct <$> (snd <$> groups).
Proof.
  induction groups as [|[s v] rest IH]; simpl; [done |]. by f_equal.
Qed.

(** The summary either computation sorts, for some way of filling the
    column of percentages. *)
Lemma allocation_is_sorted_summary (sort_values : SortValues)
    (rows : list Row) (out : list SectorRow) :
  rearranges sort_values ->
  out = calculate_sector_allocation sort_values (Holdings rows)
  \/ cli_calculate_sector_allocation sort_values (Holdings rows) = Ok out ->
  exists pct, out ≡ₚ with_percentage pct (groupby_sum rows).
Proof.
  intros Hperm [-> | Hout].
  - destruct rows as [|row rows]; [by exists (fun _ => Fin 0) |].
    rewrite allocation_of_holdings. eexists. apply Hperm.
  - unfold cli_calculate_sector_allocation in Hout. simplify_eq.
    eexists. apply Hperm.
Qed.

(** X18: the values of the sectors of an allocation add up to the value
    of the holdings that have a sector, for the tab's computation and for
    the report's: grouping counts each of them once.  A holding whose
    sector cell is empty is in the total of the table and in no row of
    the allocation; when every holding has a sector the values add up to
    the total. *)
Theorem allocation_conserves_total (sort_values : SortValues)
    (rows : list Row) (out : list SectorRow) :
  rearranges sort_values ->
  out = calculate_sector_allocation sort_values (Holdings rows)
  \/ cli_calculate_sector_allocation sort_values (Holdings rows) = Ok out ->
  Qsum (sum_Total_Value <$> out) == total_value_sum (with_sector rows)
  /\ (Forall (fun row => is_Some (Sector row)) rows ->
      Qsum (sum_Total_Value <$> out) == total_value_sum rows).
Proof.
  intros Hc Hout.
  destruct (allocation_is_sorted_summary sort_values rows out Hc Hout)
    as [pct Hperm].
  assert (Qsum (sum_Total_Value <$> out)
          == total_value_sum (with_sector rows)) as H.
  { rewrite (Qsum_perm _ (sum_Total_Value
                            <$> with_percentage pct (groupby_sum rows))).
    - rewrite with_percentage_values. apply groupby_sum_total.
    - by apply fmap_Permutation. }
  split; [exact H |].
  intros Hall. by rewrite H, (with_sector_all rows Hall).
Qed.

Lemma allocation_conserves_total_two_sectors :
  rearranges insertion_sort
  /\ Forall (fun row => is_Some (Sector row)) two_sectors
  /\ Qsum (sum_Total_Value
             <$> calculate_sector_allocation insertion_sort
                   (Holdings two_sectors))
     == total_value_sum two_sectors
  /\ Qsum (sum_Total_Value
             <$> calculate_sector_allocation insertion_sort
                   (Holdings with_unknown))
     == 600
  /\ total_value_sum with_unknown == 1000.
Proof.
  assert (Forall (fun row => is_Some (Sector row)) two_sectors) as Hall.
  { by repeat constructor. }
  split; [exact insertion_sort_contract |]. split; [exact Hall |].
  split; [| split; [| reflexivity]].
  - exact (proj2 (allocation_conserves_total insertion_sort two_sectors _
                    insertion_sort_contract (or_introl eq_refl)) Hall).
  - rewrite (proj1 (allocation_conserves_total insertion_sort with_unknown
                      _ insertion_sort_contract (or_introl eq_refl))).
    reflexivity.
Defined.

Lemma group_add_length (key : string) (v : Q) (groups : list (string * Q)) :
  (length (group_add key v groups) <= S (length groups))%nat.
Proof.
  induction groups as [|[k s] rest IH]; simpl; [lia |].
  destruct (key ?= k)%string; simpl; lia.
Qed.

Lemma groupby_sum_length (rows : list Row) :
  (length (groupby_sum rows) <= length rows)%nat.
Proof.
  unfold groupby_sum.
  assert (forall groups,
            (length (fold_left group_row rows groups)
             <= length groups + length rows)%nat) as H.
  { induction rows as [|row rows IH]; intros groups; simpl; [lia |].
    pose proof (IH (group_row groups row)) as H1.
    assert (length (group_row groups row) <= S (length groups))%nat as H2.
    { unfold group_row. destruct (Sector row); [| lia].
      apply group_add_length. }
    lia. }
  apply (H []).
Qed.

(** X19: an allocation has one row for each sector that occurs in the
    table and no other row: no sector is listed twice, the sectors listed
    are those of the holdings that have one, and there are at most as
    many rows as holdings.  Holdings whose sector cell is empty get no
    row. *)
Theorem allocation_sectors (sort_values : SortValues)
    (rows : list Row) (out : list SectorRow) :
  rearranges sort_values ->
  out = calculate_sector_allocation sort_values (Holdings rows)
  \/ cli_calculate_sector_allocation sort_values (Holdings rows) = Ok out ->
  NoDup (sum_Sector <$> out)
  /\ (forall s, s ∈ sum_Sector <$> out <-> Some s ∈ Sector <$> rows)
  /\ (length out <= length rows)%nat.
Proof.
  intros Hc Hout.
  destruct (allocation_is_sorted_summary sort_values rows out Hc Hout)
    as [pct Hperm].
  assert (sum_Sector <$> out ≡ₚ fst <$> groupby_sum rows) as Hkeys.
  { rewrite <- (with_percentage_sectors pct). by apply fmap_Permutation. }
  split; [| split].
  - rewrite Hkeys. apply groupby_sum_keys_NoDup.
  - intros s. rewrite Hkeys. apply groupby_sum_keys.
  - rewrite <- (length_fmap sum_Sector), Hkeys, length_fmap.
    apply groupby_sum_length.
Qed.

Lemma allocation_sectors_with_unknown :
  rearranges insertion_sort
  /\ NoDup (sum_Sector
              <$> calculate_sector_allocation insertion_sort
                    (Holdings with_unknown))
  /\ sum_Sector
       <$> calculate_sector_allocation insertion_sort
             (Holdings with_unknown)
     = ["Industrials"; "Technology"].
Proof.
  split; [exact insertion_sort_contract |].
  split; [| reflexivity].
  exact (proj1 (allocation_sectors insertion_sort with_unknown _
                  insertion_sort_contract (or_introl eq_refl))).
Defined.

Lemma total_value_sum_nil : total_value_sum [] = 0.
Proof. reflexivity. Qed.

Lemma positive_total_guard (t : Q) :
  0 < t -> negb (Qle_bool t 0) = true /\ Qeq_bool t 0 = false.
Proof.
  intros Ht. split.
  - destruct (Qle_bool t 0) eqn:E; [| done].
    apply Qle_bool_iff in E. lra.
  - destruct (Qeq_bool t 0) eqn:E; [| done].
    apply Qeq_bool_iff in E. lra.
Qed.

(** X20: on a table whose total value is positive the report's
    allocation is the tab's: the two copies of the computation differ
    only on an empty table and on a total that is not positive. *)
Theorem report_agrees_with_tab (sort_values : SortValues)
    (rows : list Row) :
  0 < total_value_sum rows ->
  cli_calculate_sector_allocation sort_values (Holdings rows)
  = Ok (calculate_sector_allocation sort_values (Holdings rows)).
Proof.
  intros Ht.
  destruct rows as [|row rows].
  { rewrite total_value_sum_nil in Ht. by apply Qlt_irrefl in Ht. }
  rewrite allocation_of_holdings.
  unfold cli_calculate_sector_allocation. cbv zeta.
  destruct (positive_total_guard _ Ht) as [Hle Heq].
  do 2 f_equal. unfold with_percentage. apply map_ext.
  intros [s v]. rewrite Hle. unfold xdiv. by rewrite Heq.
Qed.

Lemma report_agrees_with_tab_two_sectors :
  0 < total_value_sum two_sectors
  /\ cli_calculate_sector_allocation insertion_sort (Holdings two_sectors)
     = Ok (calculate_sector_allocation insertion_sort
             (Holdings two_sectors)).
Proof.
  assert (0 < total_value_sum two_sectors) as H by reflexivity.
  split; [exact H |].
  exact (report_agrees_with_tab insertion_sort two_sectors H).
Defined.

(** ** Rounding *)

Lemma rint_near (x : Q) :
  x - (1 # 2) <= inject_Z (rint x) /\ inject_Z (rint x) <= x + (1 # 2).
Proof.
  unfold rint. cbv zeta.
  pose proof (Qfloor_le x) as Hlo. pose proof (Qlt_floor x) as Hhi.
  rewrite inject_Z_plus in Hhi. change (inject_Z 1) with 1 in Hhi.
  destruct (Qcompare_spec (x - inject_Z (Qfloor x)) (1 # 2)) as [He|Hl|Hg].
  - destruct (Z.even (Qfloor x));
      rewrite ?inject_Z_plus; change (inject_Z 1) with 1; lra.
  - lra.
  - rewrite inject_Z_plus. change (inject_Z 1) with 1. lra.
Qed.

Lemma round2_near (x : Q) :
  x - (1 # 200) <= round2 x /\ round2 x <= x + (1 # 200).
Proof.
  unfold round2, Qdiv. change (/ 100) with (1 # 100).
  pose proof (rint_near (x * 100)). lra.
Qed.

Lemma percent_sum_near (t : Q) (l : list Q) :
  ~ t == 0 ->
  Qsum l / t * 100 - inject_Z (Z.of_nat (length l)) * (1 # 200)
  <= Qsum ((fun v => round2 (v / t * 100)) <$> l)
  /\ Qsum ((fun v => round2 (v / t * 100)) <$> l)
     <= Qsum l / t * 100 + inject_Z (Z.of_nat (length l)) * (1 # 200).
Proof.
  intros Ht. induction l as [|v l IH].
  - change (Qsum []) with 0. change (Qsum (_ <$> [])) with 0.
    change (inject_Z (Z.of_nat (length (@nil Q)))) with 0.
    assert (0 / t * 100 == 0) as H0 by (field; exact Ht).
    rewrite H0. lra.
  - rewrite fmap_cons, !Qsum_cons. cbn [length].
    rewrite Nat2Z.inj_succ. unfold Z.succ. rewrite inject_Z_plus.
    change (inject_Z 1) with 1.
    assert ((v + Qsum l) / t * 100 == v / t * 100 + Qsum l / t * 100)
      as Hsplit by (field; exact Ht).
    rewrite Hsplit.
    pose proof (round2_near (v / t * 100)) as Hv.
    revert IH Hv.
    generalize (round2 (v / t * 100)) (v / t * 100) (Qsum l / t * 100)
               (Qsum ((fun v => round2 (v / t * 100)) <$> l))
               (inject_Z (Z.of_nat (length l))).
    intros. lra.
Qed.

(** X21: on a table whose total value is positive and whose holdings
    all have a sector, every percentage of the allocation is a finite
    number and the percentages add up to 100 up to the rounding of each
    row: the sum is within 0.005 per sector of 100, and need not be
    100.  (A holding without a sector is in the total and in no row, so
    that its share is missing from the sum.) *)
Theorem percentages_add_up (sort_values : SortValues) (rows : list Row) :
  rearranges sort_values ->
  0 < total_value_sum rows ->
  Forall (fun row => is_Some (Sector row)) rows ->
  let out := calculate_sector_allocation sort_values (Holdings rows) in
  let drift := inject_Z (Z.of_nat (length out)) * (1 # 200) in
  Forall (fun r => exists q, Percentage r = Fin q) out
  /\ 100 - drift <= Qsum (percent_value <$> (Percentage <$> out))
  /\ Qsum (percent_value <$> (Percentage <$> out)) <= 100 + drift.
Proof.
  intros Hperm Ht Hall out drift.
  destruct rows as [|row rows].
  { rewrite total_value_sum_nil in Ht. by apply Qlt_irrefl in Ht. }
  subst drift out. rewrite allocation_of_holdings.
  destruct (positive_total_guard _ Ht) as [Hle _]. rewrite Hle.
  set (t := total_value_sum (row :: rows)) in *.
  set (groups := groupby_sum (row :: rows)).
  set (summary := with_percentage
                    (fun v => Fin (round2 (v / t * 100))) groups).
  pose proof (Hperm summary) as Hp.
  assert (percent_value <$> (Percentage <$> summary)
          = (fun v => round2 (v / t * 100)) <$> (snd <$> groups)) as Hcol.
  { unfold summary. rewrite with_percentage_percentages.
    rewrite <- !list_fmap_compose. done. }
  assert (Qsum (snd <$> groups) / t * 100 == 100) as Hsum.
  { unfold groups. rewrite groupby_sum_total, (with_sector_all _ Hall).
    fold t. field. lra. }
  assert (length summary = length (snd <$> groups)) as Hlen.
  { unfold summary, with_percentage.
    by rewrite length_map, length_fmap. }
  split; [| rewrite (Permutation_length Hp), Hlen;
            rewrite (Qsum_perm _ (percent_value <$> (Percentage <$> summary)))
              by (by do 2 apply fmap_Permutation);
            rewrite Hcol, <- Hsum; apply percent_sum_near; lra].
  rewrite Hp. unfold summary, with_percentage.
  apply Forall_forall. intros r Hr.
  apply list_elem_of_In, in_map_iff in Hr as [[s v] [<- _]]. by eexists.
Qed.

Lemma percentages_add_up_thirds :
  rearranges insertion_sort
  /\ 0 < total_value_sum thirds
  /\ Forall (fun row => is_Some (Sector row)) thirds
  /\ (100 - (3 # 200)
      <= Qsum (percent_value
                 <$> (Percentage
                        <$> calculate_sector_allocation insertion_sort
                              (Holdings thirds)))
      /\ Qsum (percent_value
                 <$> (Percentage
                        <$> calculate_sector_allocation insertion_sort
                              (Holdings thirds)))
         <= 100 + (3 # 200))
  /\ Qsum (percent_value
             <$> (Percentage
                    <$> calculate_sector_allocation insertion_sort
                          (Holdings thirds)))
     == 9999 # 100.
Proof.
  assert (0 < total_value_sum thirds) as H by reflexivity.
  assert (Forall (fun row => is_Some (Sector row)) thirds) as Hall.
  { by repeat constructor. }
  split; [exact insertion_sort_contract |].
  split; [exact H |]. split; [exact Hall |].
  split; [| reflexivity].
  exact (proj2 (percentages_add_up insertion_sort thirds
                  insertion_sort_contract H Hall)).
Defined.

Lemma rint_nonneg (x : Q) : 0 <= x -> (0 <= rint x)%Z.
Proof.
  intros Hx. unfold rint. cbv zeta.
  assert (0 <= Qfloor x)%Z as Hf.
  { change 0%Z with (Qfloor 0). by apply Qfloor_resp_le. }
  destruct (Qcompare _ _); [destruct (Z.even _) | |]; lia.
Qed.

Lemma rint_le (x : Q) (n : Z) : x <= inject_Z n -> (rint x <= n)%Z.
Proof.
  intros Hx. pose proof (rint_near x) as [_ Hhi].
  apply Z.lt_succ_r. unfold Z.succ. rewrite Zlt_Qlt, inject_Z_plus.
  change (inject_Z 1) with 1. lra.
Qed.

Lemma round2_range (x : Q) : 0 <= x <= 100 -> 0 <= round2 x <= 100.
Proof.
  intros [Hlo Hhi]. unfold round2, Qdiv. change (/ 100) with (1 # 100).
  assert (0 <= inject_Z (rint (x * 100))) as H0.
  { change 0 with (inject_Z 0). rewrite <- Zle_Qle.
    apply rint_nonneg. lra. }
  assert (inject_Z (rint (x * 100)) <= 10000) as H1.
  { change 10000 with (inject_Z 10000). rewrite <- Zle_Qle.
    apply rint_le. change (inject_Z 10000) with 10000. lra. }
  lra.
Qed.

Lemma Qsum_nonneg (l : list Q) : Forall (Qle 0) l -> 0 <= Qsum l.
Proof.
  induction 1 as [|x l Hx _ IH].
  - apply Qle_refl.
  - rewrite Qsum_cons. lra.
Qed.

Lemma Qsum_bounds_member (l : list Q) (x : Q) :
  Forall (Qle 0) l -> x ∈ l -> x <= Qsum l.
Proof.
  induction 1 as [|y l Hy Hl IH]; intros Hin.
  - by apply elem_of_nil in Hin.
  - rewrite Qsum_cons. apply elem_of_cons in Hin as [-> | Hin].
    + pose proof (Qsum_nonneg l Hl). lra.
    + specialize (IH Hin). lra.
Qed.

Lemma group_add_nonneg (key : string) (v : Q) (groups : list (string * Q)) :
  0 <= v -> Forall (Qle 0) (snd <$> groups) ->
  Forall (Qle 0) (snd <$> group_add key v groups).
Proof.
  intros Hv. induction groups as [|[k s] rest IH]; intros Hg.
  - by repeat constructor.
  - cbn [group_add]. rewrite fmap_cons in Hg.
    apply Forall_cons in Hg as [Hs Hrest]. cbn [snd] in Hs.
    destruct (key ?= k)%string; rewrite ?fmap_cons; cbn [snd].
    + constructor; [lra | done].
    + by repeat constructor.
    + constructor; [done | by apply IH].
Qed.

Lemma groupby_sum_nonneg (rows : list Row) :
  Forall (fun row => 0 <= Total_Value row) rows ->
  Forall (Qle 0) (snd <$> groupby_sum rows).
Proof.
  unfold groupby_sum.
  assert (forall groups,
            Forall (fun row => 0 <= Total_Value row) rows ->
            Forall (Qle 0) (snd <$> groups) ->
            Forall (Qle 0) (snd <$> fold_left group_row rows groups)) as H.
  { induction rows as [|row rows IH]; intros groups Hrows Hg; [done |].
    apply Forall_cons in Hrows as [Hrow Hrows]. cbn [fold_left].
    apply IH; [done |]. unfold group_row.
    destruct (Sector row); [by apply group_add_nonneg | done]. }
  intros Hrows. apply H; [done | constructor].
Qed.

(** The holdings that have a sector are worth no more than all the
    holdings, when none has a negative value. *)
Lemma with_sector_total_le (rows : list Row) :
  Forall (fun row => 0 <= Total_Value row) rows ->
  total_value_sum (with_sector rows) <= total_value_sum rows.
Proof.
  rewrite !total_value_sum_Qsum.
  induction 1 as [|row rows Hrow _ IH].
  - apply Qle_refl.
  - rewrite with_sector_cons. destruct (Sector row);
      rewrite ?fmap_cons, ?Qsum_cons; lra.
Qed.

Lemma share_range (v t : Q) :
  0 < t -> 0 <= v <= t -> 0 <= v / t * 100 <= 100.
Proof.
  intros Ht [Hlo Hhi].
  assert (0 <= v / t) as H0 by (apply Qle_shift_div_l; lra).
  assert (v / t <= 1) as H1 by (apply Qle_shift_div_r; lra).
  revert H0 H1. generalize (v / t). intros. lra.
Qed.

(** X22: when no holding has a negative value, every percentage of the
    tab's allocation is a number between 0 and 100, whatever the total. *)
Theorem percentages_in_range (sort_values : SortValues) (rows : list Row) :
  rearranges sort_values ->
  Forall (fun row => 0 <= Total_Value row) rows ->
  Forall (fun r => exists q, Percentage r = Fin q /\ 0 <= q <= 100)
         (calculate_sector_allocation sort_values (Holdings rows)).
Proof.
  intros Hperm Hrows. unfold rearranges in Hperm.
  destruct rows as [|row rows]; [constructor |].
  rewrite allocation_of_holdings, Hperm.
  pose proof (groupby_sum_nonneg _ Hrows) as Hg.
  pose proof (groupby_sum_total (row :: rows)) as Htotal.
  pose proof (with_sector_total_le _ Hrows) as Hsub.
  set (t := total_value_sum (row :: rows)) in *.
  set (groups := groupby_sum (row :: rows)) in *.
  unfold with_percentage. apply Forall_forall. intros r Hr.
  apply list_elem_of_In, in_map_iff in Hr as [[s v] [<- Hin]].
  cbn [Percentage].
  destruct (negb (Qle_bool t 0)) eqn:Hguard.
  - eexists. split; [reflexivity |].
    apply round2_range, share_range.
    + apply negb_true_iff in Hguard.
      destruct (Qlt_le_dec 0 t) as [Hlt | Hle]; [done |].
      apply Qle_bool_iff in Hle. congruence.
    + apply list_elem_of_In in Hin.
      assert (v ∈ snd <$> groups) as Hv.
      { apply list_elem_of_fmap. by exists (s, v). }
      split.
      * by apply (proj1 (Forall_forall _ _) Hg).
      * apply Qle_trans with (Qsum (snd <$> groups));
          [by apply Qsum_bounds_member |].
        rewrite Htotal. exact Hsub.
  - exists 0. split; [reflexivity | lra].
Qed.

Lemma percentages_in_range_thirds :
  rearranges insertion_sort
  /\ Forall (fun row => 0 <= Total_Value row) thirds
  /\ Forall (fun r => exists q, Percentage r = Fin q /\ 0 <= q <= 100)
       (calculate_sector_allocation insertion_sort (Holdings thirds)).
Proof.
  assert (Forall (fun row => 0 <= Total_Value row) thirds) as H.
  { repeat constructor; discriminate. }
  split; [exact insertion_sort_contract |].
  split; [exact H |].
  exact (percentages_in_range insertion_sort thirds
           insertion_sort_contract H).
Defined.

(** ** The import of symbols and shares *)

Lemma import_row_cells (yf : Provider) (now symbol : string)
    (shares : xnum) :
  let row := (import_row yf now symbol shares).1 in
  let counted := (import_row yf now symbol shares).2 in
  imp_Symbol row = symbol
  /\ imp_Shares row = shares
  /\ counted = negb (Qeq_bool (imp_Current_Price row) 0)
  /\ (counted = false -> imp_Total_Value row = Fin 0).
Proof.
  unfold import_row.
  destruct (ticker_info (yf symbol)) as [info|]; [| done].
  destruct (imported_sector yf symbol info) as [v|]; [| done].
  destruct (get_price yf symbol) as [p|] eqn:Hp; [| done].
  cbn [truthy]. destruct (negb (Qeq_bool p 0)) eqn:Hz; [| done].
  cbn [fst snd set_imported_price set_sector set_company blank_row
       imp_Symbol imp_Shares imp_Current_Price imp_Total_Value].
  rewrite Hz. done.
Qed.

(** X23: the import of a file with symbols and shares keeps every row of
    the file, in order and with its symbol and shares, whatever the
    provider answers: a symbol the provider does not know is added all
    the same.  The number of "successfully imported" positions is the
    number of rows that got a price; the other rows have the price 0 and
    the value 0. *)
Theorem import_keeps_every_row (yf : Provider) (now : string)
    (imported : list (string * xnum)) :
  let processed := (import_rows yf now imported).1 in
  let successful_imports := (import_rows yf now imported).2 in
  imp_Symbol <$> processed = fst <$> imported
  /\ imp_Shares <$> processed = snd <$> imported
  /\ successful_imports
     = length (filter (fun r => negb (Qeq_bool (imp_Current_Price r) 0)
                                = true) processed)
  /\ (successful_imports <= length imported)%nat
  /\ Forall (fun r => imp_Current_Price r == 0 -> imp_Total_Value r = Fin 0)
       processed.
Proof.
  unfold import_rows. cbn [fst snd].
  induction imported as [|[symbol shares] rest IH].
  - repeat split; constructor.
  - destruct IH as (Hsym & Hsh & Hcount & Hle & Hzero).
    pose proof (import_row_cells yf now symbol shares) as Hrow.
    cbv zeta in Hrow. destruct Hrow as (Hs & Hq & Hc & Hv).
    cbn [map]. rewrite !fmap_cons, !filter_cons. cbn [fst snd].
    fold (fmap (M:=list) imp_Symbol) in *.
    destruct (import_row yf now symbol shares) as [row counted].
    cbn [fst snd] in *.
    split; [by rewrite Hs, <- Hsym |].
    split; [by rewrite Hq, <- Hsh |].
    split; [| split].
    + rewrite <- Hc.
      destruct (decide (counted = true)) as [-> | Hn]; cbn [length];
        by rewrite Hcount.
    + destruct (decide (counted = true)); cbn [length]; lia.
    + constructor; [| exact Hzero].
      intros Hp. apply Hv. rewrite Hc.
      apply Qeq_bool_iff in Hp. by rewrite Hp.
Qed.

Lemma imported_sector_when_info (yf : Provider) (symbol : string)
    (info : Info) (qt : string) :
  ticker_info (yf symbol) = Ok info ->
  quote_type_lower info = Ok qt ->
  imported_sector yf symbol info =
    if PyStr.contains "etf" qt || PyStr.endswith symbol "F"
    then Ok (Some (get_etf_sector_classification yf symbol))
    else if PyStr.endswith symbol "X"
    then let! fund_name := py_lower (dict_get_default (shortName info) "") in
         Ok (Some (fund_sector fund_name))
    else Ok (dict_get_default (sector info) "Unknown").
Proof.
  intros Hinfo Hqt. unfold imported_sector.
  rewrite (security_type_when_info yf symbol info qt Hinfo Hqt).
  destruct (PyStr.contains "etf" qt || PyStr.endswith symbol "F");
    [reflexivity |].
  destruct (PyStr.endswith symbol "X"); [reflexivity |].
  destruct (PyStr.contains "index" qt); reflexivity.
Qed.

Lemma fund_sector_range (fund_name : string) :
  fund_sector fund_name
  ∈ ["Bond Fund"; "Growth Fund"; "Value Fund"; "Index Fund"; "Mutual Fund"].
Proof.
  unfold fund_sector.
  repeat (match goal with
          | |- context [if ?b then _ else _] => destruct b; [set_solver |]
          end).
  set_solver.
Qed.

Lemma import_row_sector (yf : Provider) (now symbol : string)
    (shares : xnum) (info : Info) (v : option string) :
  ticker_info (yf symbol) = Ok info ->
  imported_sector yf symbol info = Ok v ->
  imp_Sector (import_row yf now symbol shares).1 = v.
Proof.
  intros Hinfo Hv. unfold import_row. rewrite Hinfo, Hv.
  destruct (get_price yf symbol) as [p|]; [| done].
  cbn [truthy]. by destruct (negb (Qeq_bool p 0)).
Qed.

(** X24: the sector the import gives a row, when the provider answers
    with a quote type.  A symbol that ends in 'F' gets one of the eleven
    labels of the ETF classification and a symbol that ends in 'X' (and
    is no ETF) one of the five fund labels, whatever sector the provider
    reports: the provider's sector, or "Unknown" without one, is used
    only for the other symbols.  A fund whose name is [None] is left
    without company, sector and price, and is not counted. *)
Theorem import_sector_by_suffix (yf : Provider) (now symbol : string)
    (shares : xnum) (info : Info) (qt : string) :
  ticker_info (yf symbol) = Ok info ->
  quote_type_lower info = Ok qt ->
  let row := (import_row yf now symbol shares).1 in
  (PyStr.endswith symbol "F" = true ->
   exists label,
     imp_Sector row = Some label
     /\ label = get_etf_sector_classification yf symbol
     /\ label ∈ ["Bond ETF"; "Technology ETF"; "Index ETF";
                 "Healthcare ETF"; "Energy ETF"; "Financial ETF";
                 "Dividend ETF"; "Growth ETF"; "Value ETF"; "Crypto ETF";
                 "ETF"])
  /\ (PyStr.contains "etf" qt = false ->
      PyStr.endswith symbol "F" = false ->
      PyStr.endswith symbol "X" = true ->
      (forall name,
         dict_get_default (shortName info) "" = Some name ->
         exists label,
           imp_Sector row = Some label
           /\ label ∈ ["Bond Fund"; "Growth Fund"; "Value Fund";
                       "Index Fund"; "Mutual Fund"])
      /\ (shortName info = Null ->
          import_row yf now symbol shares
          = (set_company None (blank_row now symbol shares), false)))
  /\ (PyStr.contains "etf" qt = false ->
      PyStr.endswith symbol "F" = false ->
      PyStr.endswith symbol "X" = false ->
      imp_Sector row = dict_get_default (sector info) "Unknown").
Proof.
  intros Hinfo Hqt row. subst row.
  pose proof (imported_sector_when_info yf symbol info qt Hinfo Hqt) as Hs.
  split; [| split].
  - intros HF. rewrite HF, orb_true_r in Hs.
    eexists. split; [| split; [reflexivity |]].
    + by apply (import_row_sector yf now symbol shares info).
    + apply etf_classification_range.
  - intros Hetf HF HX. rewrite Hetf, HF, HX in Hs. cbn [orb] in Hs.
    split.
    + intros name Hname. rewrite Hname in Hs. cbn [py_lower rbind] in Hs.
      eexists. split.
      * by apply (import_row_sector yf now symbol shares info).
      * apply fund_sector_range.
    + intros Hnull. unfold import_row. rewrite Hinfo, Hs, Hnull. done.
  - intros Hetf HF HX. rewrite Hetf, HF, HX in Hs. cbn [orb] in Hs.
    by apply (import_row_sector yf now symbol shares info).
Qed.

Lemma import_sector_by_suffix_ford :
  ticker_info (ford "F") = Ok {| quoteType := Present "EQUITY";
                                 shortName := Present "Ford Motor Company";
                                 sector := Present "Consumer Cyclical";
                                 currentPrice := Present 12;
                                 regularMarketPrice := Present 12;
                                 previousClose := Present 11.9 |}
  /\ PyStr.endswith "F" "F" = true
  /\ imp_Sector (import_row ford "2024-01-02 10:00:00" "F" (Fin 3)).1
     = Some "ETF".
Proof.
  split; [reflexivity |]. split; [reflexivity |].
  destruct (import_sector_by_suffix ford "2024-01-02 10:00:00" "F" (Fin 3)
              _ "equity" eq_refl eq_refl) as [H _].
  destruct (H eq_refl) as (label & Hrow & Hlabel & _).
  rewrite Hrow, Hlabel. reflexivity.
Defined.
